(** * MoveTo stage of moveit_task_constructor: a shallow embedding

    Source: core/src/stages/move_to.cpp.  The stage interprets a loosely
    typed goal (a [boost::any]) as a joint-space or a Cartesian target,
    calls a planner and post-processes the trajectory it returns.

    Conventions of the embedding:
    - a C++ [double] is a value of an arbitrary type [R] with the constants
      and operations of the class [Scalar]; no law is assumed on them;
    - a [moveit::core::RobotState] is represented by its variable positions
      (a finite map from variable name to value); velocities, cached link
      transforms and attached bodies are not represented;
    - objects reachable from [compute] (the scene of the interface state,
      the diff scene handed back, the solution and the requests received
      by the planner) live in one record, [Memory], threaded through a
      state monad with early exit;
    - functions of MoveIt, Eigen and tf2 that the stage calls and that are
      not implemented in this repository are fields of the class [MoveIt]
      or are given the definition of the library they come from;
    - a name is a variable of the robot model when
      RobotModel::getVariableIndex finds it ([isVariable]); the joints of a
      group need not be variables (a fixed joint has no variable, a
      multi-DOF joint has several, named after it). *)

From stdpp Require Import gmap strings list.

Set Implicit Arguments.
Set Default Proof Using "Type".

(** ** Scalars and rigid transforms (Eigen) *)

Class Scalar (R : Type) : Type := {
  R0 : R;                 (* 0.0 *)
  R1 : R;                 (* 1.0 *)
  Radd : R -> R -> R;
  Rmul : R -> R -> R;
  Ropp : R -> R
}.

Module Eigen.
Section Eigen.
Context {R : Type} `{Scalar R}.

Record Vector3d : Type := { vx : R; vy : R; vz : R }.

(* row-wise storage of the coefficients *)
Record Matrix3d : Type := { row0 : Vector3d; row1 : Vector3d; row2 : Vector3d }.

(* Isometry3d: the affine part of the homogeneous matrix; the last row is
   fixed to (0 0 0 1) by the Isometry mode *)
Record Isometry3d : Type := { linear : Matrix3d; translation : Vector3d }.

Definition dot (a b : Vector3d) : R :=
  Radd (Radd (Rmul (vx a) (vx b)) (Rmul (vy a) (vy b))) (Rmul (vz a) (vz b)).

Definition vec_add (a b : Vector3d) : Vector3d :=
  {| vx := Radd (vx a) (vx b); vy := Radd (vy a) (vy b); vz := Radd (vz a) (vz b) |}.

Definition vec_opp (a : Vector3d) : Vector3d :=
  {| vx := Ropp (vx a); vy := Ropp (vy a); vz := Ropp (vz a) |}.

Definition transpose (m : Matrix3d) : Matrix3d :=
  {| row0 := {| vx := vx (row0 m); vy := vx (row1 m); vz := vx (row2 m) |};
     row1 := {| vx := vy (row0 m); vy := vy (row1 m); vz := vy (row2 m) |};
     row2 := {| vx := vz (row0 m); vy := vz (row1 m); vz := vz (row2 m) |} |}.

Definition mat_vec (m : Matrix3d) (v : Vector3d) : Vector3d :=
  {| vx := dot (row0 m) v; vy := dot (row1 m) v; vz := dot (row2 m) v |}.

Definition mat_mul (a b : Matrix3d) : Matrix3d :=
  let bt := transpose b in
  {| row0 := mat_vec bt (row0 a); row1 := mat_vec bt (row1 a); row2 := mat_vec bt (row2 a) |}.

Definition mat_identity : Matrix3d :=
  {| row0 := {| vx := R1; vy := R0; vz := R0 |};
     row1 := {| vx := R0; vy := R1; vz := R0 |};
     row2 := {| vx := R0; vy := R0; vz := R1 |} |}.

(* Isometry3d * Isometry3d *)
Definition mul (a b : Isometry3d) : Isometry3d :=
  {| linear := mat_mul (linear a) (linear b);
     translation := vec_add (mat_vec (linear a) (translation b)) (translation a) |}.

(* Isometry3d * Vector3d *)
Definition apply (a : Isometry3d) (p : Vector3d) : Vector3d :=
  vec_add (mat_vec (linear a) p) (translation a).

(* Isometry3d::inverse(): transposed rotation, translation -R^T t *)
Definition inverse (a : Isometry3d) : Isometry3d :=
  let lt := transpose (linear a) in
  {| linear := lt; translation := vec_opp (mat_vec lt (translation a)) |}.

(* [t.translation() = p]: overwrites the translation block only *)
Definition set_translation (a : Isometry3d) (p : Vector3d) : Isometry3d :=
  {| linear := linear a; translation := p |}.

Definition Identity : Isometry3d :=
  {| linear := mat_identity; translation := {| vx := R0; vy := R0; vz := R0 |} |}.
End Eigen.
Global Arguments Vector3d : clear implicits.
Global Arguments Matrix3d : clear implicits.
Global Arguments Isometry3d : clear implicits.
End Eigen.

Abbreviation Isometry3d := Eigen.Isometry3d.
Infix "*i" := Eigen.mul (at level 40, left associativity).

(** ** ROS messages *)

Module geometry_msgs.
Section Msgs.
Variable R : Type.
Record Point : Type := { x : R; y : R; z : R }.
Record Quaternion : Type := { qx : R; qy : R; qz : R; qw : R }.
Record Pose : Type := { position : Point; orientation : Quaternion }.
(* of the header only the frame id is read by the stage *)
Record PoseStamped : Type := { pose_frame_id : string; pose : Pose }.
Record PointStamped : Type := { point_frame_id : string; point : Point }.
End Msgs.
End geometry_msgs.

Module moveit_msgs.
Section Msgs.
Variable R : Type.
Record JointState : Type := { name : list string; position : list R }.
Record MultiDOFJointState : Type :=
  { joint_names : list string; transforms : list (geometry_msgs.Pose R) }.
Record RobotState : Type :=
  { joint_state : JointState;
    multi_dof_joint_state : MultiDOFJointState;
    is_diff : bool }.
End Msgs.
End moveit_msgs.

(** ** Robot model, robot state and trajectories (moveit_core) *)

Record LinkModel : Type := { link_name : string }.

(* variable name -> position *)
Abbreviation RobotState R := (gmap string R).

Section Core.
Context {R : Type}.

Record JointModelGroup : Type := {
  getName : string;
  getJointModelNames : list string;
  (* the names written by getEndEffectorTips(tips) *)
  getEndEffectorTips : list string;
  (* named default states of the group (SRDF group_state) *)
  default_states : gmap string (gmap string R)
}.

Record RobotModel : Type := { joint_model_groups : list JointModelGroup }.

(* nullptr when no group has that name *)
Definition getJointModelGroup (m : RobotModel) (group : string) : option JointModelGroup :=
  List.find (fun g => bool_decide (getName g = group)) (joint_model_groups m).

(* position_[index] = value, for the index of a variable of the model *)
Definition write_position (variable : string) (value : R)
    (state : RobotState R) : RobotState R :=
  <[variable := value]> state.

(* setVariablePositions(const std::map<std::string, double>&) *)
Definition setVariablePositions (values : gmap string R) (state : RobotState R) : RobotState R :=
  values ∪ state.

(* RobotState::setToDefaultValues(group, name): the state is written from the
   named default state and the flag tells whether the name was found.  The
   robot model builds the default states of a group from the variable names
   of its joints, so that this write meets no unknown variable. *)
Definition setToDefaultValues (jmg : JointModelGroup) (name : string)
    (state : RobotState R) : bool * RobotState R :=
  match default_states jmg !! name with
  | Some values => (true, setVariablePositions values state)
  | None => (false, state)
  end.

(* RobotState::update() refreshes cached transforms, which are not represented *)
Definition update (state : RobotState R) : RobotState R := state.

Record RobotTrajectory : Type := {
  waypoints : list (RobotState R);
  duration_from_previous : list R
}.

(* make_shared<RobotTrajectory>(robot_model, jmg) *)
Definition empty_trajectory : RobotTrajectory :=
  {| waypoints := []; duration_from_previous := [] |}.

Definition addSuffixWayPoint (state : RobotState R) (dt : R) (t : RobotTrajectory) : RobotTrajectory :=
  {| waypoints := waypoints t ++ [state];
     duration_from_previous := duration_from_previous t ++ [dt] |}.

(* waypoints_.back(): not defined on an empty trajectory *)
Definition getLastWayPoint (t : RobotTrajectory) : option (RobotState R) :=
  last (waypoints t).

(* RobotTrajectory::reverse(): the waypoints are reversed; the first duration
   is appended, the durations are reversed and the last one is dropped.
   (It also inverts the velocities of the waypoints, which are not
   represented.) *)
Definition reverse (t : RobotTrajectory) : RobotTrajectory :=
  {| waypoints := rev (waypoints t);
     duration_from_previous :=
       match duration_from_previous t with
       | [] => []
       | front :: _ => removelast (rev (duration_from_previous t ++ [front]))
       end |}.

(** ** Planning scenes *)

Record PlanningScene : Type := {
  getRobotModel : RobotModel;
  getPlanningFrame : string;
  getCurrentState : RobotState R
}.

(* A scene made by [diff()]: it has its own robot state only once one was
   requested for writing; until then it reads its parent's. *)
Record PlanningSceneDiff : Type := { robot_state_ : option (RobotState R) }.

End Core.
Global Arguments JointModelGroup : clear implicits.
Global Arguments RobotModel : clear implicits.
Global Arguments RobotTrajectory : clear implicits.
Global Arguments PlanningScene : clear implicits.
Global Arguments PlanningSceneDiff : clear implicits.

(** ** Library functions used by the stage *)

Class MoveIt (R : Type) : Type := {
  (* Eigen::Quaterniond -> rotation matrix, as used by tf2::fromMsg *)
  toRotationMatrix : geometry_msgs.Quaternion R -> Eigen.Matrix3d R;
  (* rotation matrix -> quaternion, as used by tf2::toMsg *)
  toQuaternion : Eigen.Matrix3d R -> geometry_msgs.Quaternion R;
  (* PlanningScene::getFrameTransform and knowsFrameTransform, which look the
     frame up in the current robot state and then in the world *)
  frameTransform : RobotState R -> string -> Isometry3d R;
  knowsFrame : RobotState R -> string -> bool;
  (* utils::getRigidlyConnectedParentLinkModel (declared in utils.h); the
     result is a pointer, null when the frame has no parent link *)
  getRigidlyConnectedParentLinkModel : RobotState R -> string -> option LinkModel;
  (* whether RobotModel::getVariableIndex, of the robot model of the states,
     finds the name; it throws moveit::Exception when it does not *)
  isVariable : string -> bool;
  (* one step of the loop of _multiDOFJointsToRobotState: a name the model
     has no joint for is skipped, for any other
     RobotState::setJointPositions(joint, transform) writes the variables
     of the joint *)
  setJointPositions : string -> geometry_msgs.Pose R -> RobotState R -> RobotState R;
  (* operator<< of geometry_msgs::PoseStamped *)
  print_PoseStamped : geometry_msgs.PoseStamped R -> string
}.

Section Tf2.
Context {R : Type} `{MoveIt R}.

(* tf2::fromMsg(const geometry_msgs::Point&, Eigen::Vector3d&) *)
Definition fromMsg_Point (p : geometry_msgs.Point R) : Eigen.Vector3d R :=
  {| Eigen.vx := geometry_msgs.x p; Eigen.vy := geometry_msgs.y p; Eigen.vz := geometry_msgs.z p |}.

(* tf2::fromMsg(const geometry_msgs::Pose&, Eigen::Isometry3d&) *)
Definition fromMsg_Pose (p : geometry_msgs.Pose R) : Isometry3d R :=
  {| Eigen.linear := toRotationMatrix (geometry_msgs.orientation p);
     Eigen.translation := fromMsg_Point (geometry_msgs.position p) |}.

(* tf2::toMsg(const Eigen::Isometry3d&) *)
Definition toMsg (t : Isometry3d R) : geometry_msgs.Pose R :=
  let p := Eigen.translation t in
  {| geometry_msgs.position :=
       {| geometry_msgs.x := Eigen.vx p; geometry_msgs.y := Eigen.vy p; geometry_msgs.z := Eigen.vz p |};
     geometry_msgs.orientation := toQuaternion (Eigen.linear t) |}.

End Tf2.

(** ** Solutions, goals and planner requests (task constructor) *)

Inductive Direction : Type := FORWARD | BACKWARD.

Record InitStageException : Type := { what : string }.

(* the moveit::Exception of RobotModel::getVariableIndex, for a name that is
   not a variable of the model *)
Record moveit_Exception : Type := { unknown_variable : string }.

Section Storage.
Context {R : Type}.

(* a coordinate frame appended by rviz_marker_tools::appendFrame; the scale
   is a drawing parameter and is left out *)
Record FrameMarker : Type := {
  marker_frame_id : string;
  marker_pose : geometry_msgs.Pose R;
  marker_ns : string
}.

Record SubTrajectory : Type := {
  trajectory : option (RobotTrajectory R);
  (* the cost was set to infinity *)
  isFailure : bool;
  comment : string;
  markers : list FrameMarker
}.

(* a default-constructed SubTrajectory *)
Definition new_solution : SubTrajectory :=
  {| trajectory := None; isFailure := false; comment := ""; markers := [] |}.

Definition setTrajectory (t : RobotTrajectory R) (s : SubTrajectory) : SubTrajectory :=
  {| trajectory := Some t; isFailure := isFailure s; comment := comment s; markers := markers s |}.

Definition append_marker (f : FrameMarker) (s : SubTrajectory) : SubTrajectory :=
  {| trajectory := trajectory s; isFailure := isFailure s; comment := comment s;
     markers := markers s ++ [f] |}.

(** Modelled from the spec: [SolutionBase::markAsFailure] is declared in
    storage.h, which is not among the sources.  The spec lists it as
    markAsFailure(message) on a record with a success flag and an optional
    failure message: the record is marked as failed and the message, when
    one is given, becomes the message of the record.  The call without
    argument gives no message; it is the call with the empty string. *)
Definition markAsFailure (msg : string) (s : SubTrajectory) : SubTrajectory :=
  {| trajectory := trajectory s;
     isFailure := true;
     comment := if bool_decide (msg = "") then comment s else msg;
     markers := markers s |}.

(* the dynamic content of the boost::any that holds the goal property; the
   joint map is listed in the iteration order of std::map (ascending keys) *)
Inductive any : Type :=
| any_empty
| any_string (s : string)
| any_RobotState (msg : moveit_msgs.RobotState R)
| any_joint_map (joints : list (string * R))
| any_PoseStamped (msg : geometry_msgs.PoseStamped R)
| any_PointStamped (msg : geometry_msgs.PointStamped R)
| any_other (type_name : string).

(* boost::any_cast<T>: None stands for the exception bad_any_cast *)
Definition any_cast_string (a : any) : option string :=
  match a with any_string s => Some s | _ => None end.
Definition any_cast_RobotState (a : any) : option (moveit_msgs.RobotState R) :=
  match a with any_RobotState m => Some m | _ => None end.
Definition any_cast_joint_map (a : any) : option (list (string * R)) :=
  match a with any_joint_map m => Some m | _ => None end.
Definition any_cast_PoseStamped (a : any) : option (geometry_msgs.PoseStamped R) :=
  match a with any_PoseStamped m => Some m | _ => None end.
Definition any_cast_PointStamped (a : any) : option (geometry_msgs.PointStamped R) :=
  match a with any_PointStamped m => Some m | _ => None end.

Definition empty (a : any) : bool :=
  match a with any_empty => true | _ => false end.

(* goal.type().name(); the spelling is implementation-defined *)
Definition type_name_of (a : any) : string :=
  match a with
  | any_empty => "void"
  | any_string _ => "std::string"
  | any_RobotState _ => "moveit_msgs::RobotState"
  | any_joint_map _ => "std::map<std::string, double>"
  | any_PoseStamped _ => "geometry_msgs::PoseStamped"
  | any_PointStamped _ => "geometry_msgs::PointStamped"
  | any_other n => n
  end.

End Storage.
Global Arguments FrameMarker : clear implicits.
Global Arguments SubTrajectory : clear implicits.
Global Arguments any : clear implicits.

Section Planner.
Context {R Constraints : Type}.

(* the two overloads of PlannerInterface::plan *)
Inductive PlanRequest : Type :=
| JointRequest (from to : PlanningScene R) (jmg : JointModelGroup R)
    (timeout : R) (path_constraints : Constraints)
| CartesianRequest (from : PlanningScene R) (link : LinkModel) (target : Isometry3d R)
    (jmg : JointModelGroup R) (timeout : R) (path_constraints : Constraints).

(* [plan] gives the boolean result and the value left in the result
   pointer, which is null (None) when the planner does not assign it;
   [planner_init] gives the exception it raises, if any *)
Record PlannerInterface : Type := {
  plan : PlanRequest -> bool * option (RobotTrajectory R);
  planner_init : RobotModel R -> option InitStageException
}.

(* the properties of the stage, with its planner *)
Record MoveTo : Type := {
  planner_ : PlannerInterface;
  group : string;
  ik_frame : option (geometry_msgs.PoseStamped R);
  goal : any R;
  path_constraints : Constraints;
  timeout : R;
  storeFailures : bool
}.

End Planner.
Global Arguments PlanRequest : clear implicits.
Global Arguments PlannerInterface : clear implicits.
Global Arguments MoveTo : clear implicits.

(** ** Control flow: a state monad with early exit *)

Inductive outcome : Type :=
| Returned (b : bool)                (* return b; *)
| Thrown (e : InitStageException)    (* throw InitStageException(...); *)
| Raised (e : moveit_Exception)      (* an exception thrown inside a call of MoveIt *)
| Fault (operation : string).        (* null dereference or back() of an empty container *)

Definition M (S A : Type) : Type := S -> (A + outcome) * S.

Global Instance M_ret {S} : MRet (M S) := fun A a s => (inl a, s).
Global Instance M_bind {S} : MBind (M S) := fun A B f c s =>
  match c s with
  | (inl a, s') => f a s'
  | (inr o, s') => (inr o, s')
  end.

Definition gets {S A} (f : S -> A) : M S A := fun s => (inl (f s), s).
(* a function that gives a result and the new state *)
Definition state_op {S A} (f : S -> A * S) : M S A := fun s => (inl (f s).1, (f s).2).
Definition modify {S} (f : S -> S) : M S unit := fun s => (inl tt, f s).
Definition exit_with {S A} (o : outcome) : M S A := fun s => (inr o, s).
Definition return_ {S A} (b : bool) : M S A := exit_with (Returned b).
Definition throw {S A} (msg : string) : M S A := exit_with (Thrown {| what := msg |}).

Definition when {S} (c : bool) (body : M S unit) : M S unit :=
  if c then body else mret tt.

(* try { const T& x = boost::any_cast<T>(goal); body } catch (const bad_any_cast&) {} *)
Definition try_cast {S T} (x : option T) (body : T -> M S unit) : M S unit :=
  match x with
  | Some v => body v
  | None => mret tt
  end.

(* for (const auto& a : l) body *)
Fixpoint for_each {S A} (l : list A) (body : A -> M S unit) : M S unit :=
  match l with
  | [] => mret tt
  | a :: l' => body a ;; for_each l' body
  end.

(* the call of a function returning bool: its return statement ends the
   callee only; exceptions and faults go on to the caller *)
Definition call {S} (f : M S bool) : M S bool := fun s =>
  match f s with
  | (inr (Returned b), s') => (inl b, s')
  | r => r
  end.

(* a whole invocation *)
Definition run {S} (f : M S bool) (s : S) : outcome * S :=
  match f s with
  | (inl b, s') => (Returned b, s')
  | (inr o, s') => (o, s')
  end.

(** ** The stage *)

Section Stage.
Context {R Constraints : Type} `{Scalar R} `{MoveIt R}.

Abbreviation PlanRequest' := (PlanRequest R Constraints).
Abbreviation MoveTo' := (MoveTo R Constraints).

(* void MoveTo::setIKFrame(const Eigen::Isometry3d& pose, const std::string& link) *)
Definition setIKFrame (pose : Isometry3d R) (link : string) (stage : MoveTo') : MoveTo' :=
  let pose_msg := {| geometry_msgs.pose_frame_id := link; geometry_msgs.pose := toMsg pose |} in
  {| planner_ := planner_ stage; group := group stage; ik_frame := Some pose_msg;
     goal := goal stage;
     path_constraints := path_constraints stage; timeout := timeout stage;
     storeFailures := storeFailures stage |}.

(* void MoveTo::setGoal(const std::map<std::string, double>& joints) *)
Definition setGoal (joints : list (string * R)) (stage : MoveTo') : MoveTo' :=
  let robot_state :=
    {| moveit_msgs.joint_state :=
         {| moveit_msgs.name := List.map fst joints;
            moveit_msgs.position := List.map snd joints |};
       moveit_msgs.multi_dof_joint_state :=
         {| moveit_msgs.joint_names := []; moveit_msgs.transforms := [] |};
       moveit_msgs.is_diff := true |} in
  {| planner_ := planner_ stage; group := group stage; ik_frame := ik_frame stage;
     goal := any_RobotState robot_state;
     path_constraints := path_constraints stage; timeout := timeout stage;
     storeFailures := storeFailures stage |}.



(* RobotState::setVariablePosition(variable, value):
   position_[robot_model_->getVariableIndex(variable)] = value *)
Definition setVariablePosition (variable : string) (value : R) : M (RobotState R) unit :=
  if isVariable variable then modify (write_position variable value)
  else exit_with (Raised {| unknown_variable := variable |}).

(* RobotState::setVariablePositions(variable_names, variable_position), on
   vectors of one length *)
Definition setVariablePositions_vectors (names : list string) (positions : list R)
    : M (RobotState R) unit :=
  for_each (zip names positions) (fun entry => setVariablePosition entry.1 entry.2).

(* conversions.cpp, _jointStateToRobotState: names and positions of
   different lengths are reported and nothing is written; the velocities of
   the message are not represented.  The boolean results of the conversion
   only reach the result that the stage ignores. *)
Definition jointStateToRobotState (joint_state : moveit_msgs.JointState R)
    : M (RobotState R) unit :=
  let names := moveit_msgs.name joint_state in
  let positions := moveit_msgs.position joint_state in
  if bool_decide (length names = length positions) then
    (* RobotState::setVariableValues(joint_state) *)
    when (negb (bool_decide (positions = []))) (setVariablePositions_vectors names positions)
  else mret tt.

(* conversions.cpp, _multiDOFJointsToRobotState without a transform buffer *)
Definition multiDOFJointsToRobotState (mjs : moveit_msgs.MultiDOFJointState R)
    : M (RobotState R) unit :=
  let names := moveit_msgs.joint_names mjs in
  let transforms := moveit_msgs.transforms mjs in
  if bool_decide (length names = length transforms) then
    for_each (zip names transforms) (fun entry => modify (setJointPositions entry.1 entry.2))
  else mret tt.

(* moveit::core::robotStateMsgToRobotState(msg, state, false); its boolean
   result is ignored by the stage *)
Definition robotStateMsgToRobotState (msg : moveit_msgs.RobotState R) : M (RobotState R) unit :=
  let joint_state := moveit_msgs.joint_state msg in
  let multi_dof := moveit_msgs.multi_dof_joint_state msg in
  (if negb (moveit_msgs.is_diff msg)
      && bool_decide (moveit_msgs.name joint_state = [])
      && bool_decide (moveit_msgs.joint_names multi_dof = [])
   then mret tt
   else jointStateToRobotState joint_state;; multiDOFJointsToRobotState multi_dof);;
  modify update.

Definition not_part_of_group (name : string) (jmg : JointModelGroup R) : string :=
  "Joint '" +:+ name +:+ "' is not part of group '" +:+ getName jmg +:+ "'".

(* bool MoveTo::getJointStateGoal(const boost::any& goal, const JointModelGroup* jmg,
                                  RobotState& state) *)
Definition getJointStateGoal (goal : any R) (jmg : JointModelGroup R) : M (RobotState R) bool :=
  (* try named joint pose *)
  try_cast (any_cast_string goal) (fun named_joint_pose =>
    found ← state_op (setToDefaultValues jmg named_joint_pose);
    when (negb found) (throw ("Unknown joint pose: " +:+ named_joint_pose));;
    modify update;;
    return_ true);;
  (* try RobotState *)
  try_cast (any_cast_RobotState goal) (fun msg =>
    when (negb (moveit_msgs.is_diff msg)) (throw "Expecting a diff state");;
    (* validate specified joints *)
    let accepted := getJointModelNames jmg in
    for_each (moveit_msgs.name (moveit_msgs.joint_state msg)) (fun name =>
      when (bool_decide (name ∉ accepted)) (throw (not_part_of_group name jmg)));;
    for_each (moveit_msgs.joint_names (moveit_msgs.multi_dof_joint_state msg)) (fun name =>
      when (bool_decide (name ∉ accepted)) (throw (not_part_of_group name jmg)));;
    robotStateMsgToRobotState msg;;
    return_ true);;
  try_cast (any_cast_joint_map goal) (fun joint_map =>
    let accepted := getJointModelNames jmg in
    for_each joint_map (fun joint =>
      when (bool_decide (joint.1 ∉ accepted)) (throw (not_part_of_group joint.1 jmg));;
      setVariablePosition joint.1 joint.2);;
    modify update;;
    return_ true);;
  mret false.

(* PlanningScene::getFrameTransform and knowsFrameTransform *)
Definition getFrameTransform (scene : PlanningScene R) (frame_id : string) : Isometry3d R :=
  frameTransform (getCurrentState scene) frame_id.
Definition knowsFrameTransform (scene : PlanningScene R) (frame_id : string) : bool :=
  knowsFrame (getCurrentState scene) frame_id.

(* bool MoveTo::getPoseGoal(goal, scene, target): Some t when true is
   returned with t written to target, None when false is returned *)
Definition getPoseGoal (goal : any R) (scene : PlanningScene R) : option (Isometry3d R) :=
  match any_cast_PoseStamped goal with
  | Some msg =>
      let target := fromMsg_Pose (geometry_msgs.pose msg) in
      (* transform target into global frame *)
      Some (getFrameTransform scene (geometry_msgs.pose_frame_id msg) *i target)
  | None => None
  end.

(* bool MoveTo::getPointGoal(goal, ik_pose, scene, target_eigen) *)
Definition getPointGoal (goal : any R) (ik_pose : Isometry3d R) (scene : PlanningScene R)
    : option (Isometry3d R) :=
  match any_cast_PointStamped goal with
  | Some target =>
      let target_point := fromMsg_Point (geometry_msgs.point target) in
      (* transform target into global frame *)
      let target_point :=
        Eigen.apply (getFrameTransform scene (geometry_msgs.point_frame_id target)) target_point in
      (* retain link orientation *)
      let target_eigen := ik_pose in
      Some (Eigen.set_translation target_eigen target_point)
  | None => None
  end.

(** *** The objects [compute] works on *)

Record Memory : Type := {
  (* the scene of the interface state, [state.scene()] *)
  state_scene : PlanningScene R;
  (* the object behind the pointer [scene] handed back to the caller *)
  scene : PlanningSceneDiff R;
  solution : SubTrajectory R;
  (* the calls received by the planner, oldest first *)
  requests : list PlanRequest'
}.

Definition set_scene (f : PlanningSceneDiff R -> PlanningSceneDiff R) (m : Memory) : Memory :=
  {| state_scene := state_scene m; scene := f (scene m);
     solution := solution m; requests := requests m |}.

Definition set_solution (f : SubTrajectory R -> SubTrajectory R) (m : Memory) : Memory :=
  {| state_scene := state_scene m; scene := scene m;
     solution := f (solution m); requests := requests m |}.

Definition add_request (r : PlanRequest') (m : Memory) : Memory :=
  {| state_scene := state_scene m; scene := scene m;
     solution := solution m; requests := requests m ++ [r] |}.

(* scene->getCurrentState(): the state of the diff when it has one, else
   the state of its parent *)
Definition current_state (m : Memory) : RobotState R :=
  match robot_state_ (scene m) with
  | Some s => s
  | None => getCurrentState (state_scene m)
  end.

(* the diff scene as its readers see it *)
Definition scene_view (m : Memory) : PlanningScene R :=
  {| getRobotModel := getRobotModel (state_scene m);
     getPlanningFrame := getPlanningFrame (state_scene m);
     getCurrentState := current_state m |}.

(* scene = state.scene()->diff() *)
Definition diff : M Memory unit :=
  modify (set_scene (fun _ => {| robot_state_ := None |})).

(* f(scene->getCurrentStateNonConst()): the diff gets a state of its own, a
   copy of the one it read so far, and f works on that state *)
Definition on_current_state_non_const {A} (f : M (RobotState R) A) : M Memory A := fun m =>
  let r := f (current_state m) in
  (r.1, set_scene (fun _ => {| robot_state_ := Some r.2 |}) m).

(* scene->setCurrentState(state) *)
Definition setCurrentState (state : RobotState R) : M Memory unit :=
  modify (set_scene (fun _ => {| robot_state_ := Some state |})).

(* solution.markAsFailure(msg); return false; *)
Definition fail {A} (msg : string) : M Memory A :=
  modify (set_solution (markAsFailure msg));; return_ false.

(* success = planner_->plan(..., robot_trajectory, ...) *)
Definition planner_plan (stage : MoveTo') (r : PlanRequest')
    : M Memory (bool * option (RobotTrajectory R)) := fun m =>
  (inl (plan (planner_ stage) r), add_request r m).

(* the lambda get_tip: Some tip when it returns true with tip written to
   its argument, None when it returns false *)
Definition get_tip (jmg : JointModelGroup R) : option string :=
  match getEndEffectorTips jmg with
  | [tip] => Some tip
  | _ => None
  end.

(* the lambda add_frame *)
Definition add_frame (pose : Isometry3d R) (name : string) : M Memory unit :=
  modify (fun m =>
    let msg := {| marker_frame_id := getPlanningFrame (scene_view m);
                  marker_pose := toMsg pose;
                  marker_ns := name |} in
    set_solution (append_marker msg) m).

(* a default-constructed pose with orientation.w = 1.0 *)
Definition unit_pose : geometry_msgs.Pose R :=
  {| geometry_msgs.position := {| geometry_msgs.x := R0; geometry_msgs.y := R0; geometry_msgs.z := R0 |};
     geometry_msgs.orientation :=
       {| geometry_msgs.qx := R0; geometry_msgs.qy := R0; geometry_msgs.qz := R0;
          geometry_msgs.qw := R1 |} |}.

(* bool MoveTo::compute(const InterfaceState& state, PlanningScenePtr& scene,
                        SubTrajectory& solution, Interface::Direction dir)
   is written in two parts.  [plan_goal] is its body up to the comment
   "store result" (lines 180-276): it ends with the values of success and
   robot_trajectory.  [store_result] is the rest of the body (lines 278-295). *)
Definition plan_goal (stage : MoveTo') : M Memory (bool * option (RobotTrajectory R)) :=
  diff;;
  robot_model ← gets (fun m => getRobotModel (scene_view m));
  let timeout := timeout stage in
  let group := group stage in
  jmg ← match getJointModelGroup robot_model group with
        | None => fail ("invalid joint model group: " +:+ group)
        | Some jmg => mret jmg
        end;
  let goal := goal stage in
  when (empty goal) (fail "undefined goal");;
  let path_constraints := path_constraints stage in
  joint_goal ← on_current_state_non_const (call (getJointStateGoal goal jmg));
  planned ←
    (if joint_goal : bool then
       (* plan to joint-space target *)
       from ← gets state_scene;
       to ← gets scene_view;
       planner_plan stage (JointRequest from to jmg timeout path_constraints)
     else
       (* Cartesian goal *)
       let value := ik_frame stage in
       ik_pose_msg ←
         match value with
         | None =>
             (* property undefined *)
             match get_tip jmg with
             | None => fail "missing ik_frame"
             | Some tip =>
                 mret {| geometry_msgs.pose_frame_id := tip; geometry_msgs.pose := unit_pose |}
             end
         | Some ik_pose_msg =>
             frame_id ←
               (if bool_decide (geometry_msgs.pose_frame_id ik_pose_msg = "") then
                  match get_tip jmg with
                  | None => fail "frame_id of ik_frame is empty and no unique group tip was found"
                  | Some tip => mret tip
                  end
                else mret (geometry_msgs.pose_frame_id ik_pose_msg));
             let ik_pose_msg :=
               {| geometry_msgs.pose_frame_id := frame_id;
                  geometry_msgs.pose := geometry_msgs.pose ik_pose_msg |} in
             known ← gets (fun m => knowsFrameTransform (scene_view m) frame_id);
             if known : bool then mret ik_pose_msg
             else fail ("ik_frame specified in unknown frame '"
                        +:+ print_PoseStamped ik_pose_msg +:+ "'")
         end;
       let frame_id := geometry_msgs.pose_frame_id ik_pose_msg in
       ik_pose_world ← gets (fun m =>
         let t := fromMsg_Pose (geometry_msgs.pose ik_pose_msg) in
         getFrameTransform (scene_view m) frame_id *i t);
       sc ← gets scene_view;
       target ←
         match getPoseGoal goal sc with
         | Some target => mret target
         | None =>
             match getPointGoal goal ik_pose_world sc with
             | Some target => mret target
             | None => fail ("invalid goal type: " +:+ type_name_of goal)
             end
         end;
       (* visualize plan with frame at target pose and frame at link *)
       add_frame target "target frame";;
       add_frame ik_pose_world "ik frame";;
       found ← gets (fun m => getRigidlyConnectedParentLinkModel (current_state m) frame_id);
       parent ← match found with
                | Some parent => mret parent
                | None => exit_with (Fault "parent->getName()")
                end;
       (* transform target pose such that ik frame will reach there if link does *)
       parent_pose ← gets (fun m => getFrameTransform (scene_view m) (link_name parent));
       let target := target *i Eigen.inverse ik_pose_world *i parent_pose in
       (* plan to Cartesian target *)
       from ← gets state_scene;
       planner_plan stage (CartesianRequest from parent target jmg timeout path_constraints));
  mret planned.

Definition store_result (stage : MoveTo') (dir : Direction)
    (planned : bool * option (RobotTrajectory R)) : M Memory bool :=
  let success := planned.1 in
  let robot_trajectory := planned.2 in
  (* store result *)
  robot_trajectory ←
    (if bool_decide (robot_trajectory = None) && storeFailures stage then
       start ← gets (fun m => getCurrentState (state_scene m));
       current ← gets current_state;
       mret (Some (addSuffixWayPoint current R1 (addSuffixWayPoint start R0 empty_trajectory)))
     else mret robot_trajectory);
  match robot_trajectory with
  | Some robot_trajectory =>
      last_way_point ← match getLastWayPoint robot_trajectory with
                       | Some w => mret w
                       | None => exit_with (Fault "getLastWayPoint()")
                       end;
      setCurrentState last_way_point;;
      let robot_trajectory :=
        match dir with
        | BACKWARD => reverse robot_trajectory
        | FORWARD => robot_trajectory
        end in
      modify (set_solution (setTrajectory robot_trajectory));;
      when (negb success) (modify (set_solution (markAsFailure "")));;
      mret true
  | None => mret false
  end.

Definition compute (stage : MoveTo') (dir : Direction) : M Memory bool :=
  planned ← plan_goal stage;
  store_result stage dir planned.

End Stage.

(** ** Reasoning about monadic code: postconditions *)

(* [wp c Q s]: running [c] from [s] ends in a result and a state related by [Q] *)
Definition wp {S A} (c : M S A) (Q : A + outcome -> S -> Prop) (s : S) : Prop :=
  Q (c s).1 (c s).2.
Global Arguments wp : simpl never.

(** ** Notions used in the statements *)

Section Notions.
Context {R Constraints : Type} `{Scalar R} `{MoveIt R}.
Implicit Types (stage : MoveTo R Constraints) (m : @Memory R Constraints).

(* the configuration the stage plans towards: the start configuration after
   getJointStateGoal worked on the copy held by the diff scene *)
Definition working_state stage (jmg : JointModelGroup R) m : RobotState R :=
  (call (getJointStateGoal (goal stage) jmg) (getCurrentState (state_scene m))).2.

(* the value returned by getJointStateGoal in compute, None when it does
   not return *)
Definition joint_goal_matches stage (jmg : JointModelGroup R) m : option bool :=
  match (call (getJointStateGoal (goal stage) jmg) (getCurrentState (state_scene m))).1 with
  | inl b => Some b
  | inr _ => None
  end.

(* the requests compute can send to the planner *)
Inductive request_shape stage (jmg : JointModelGroup R) m : PlanRequest R Constraints -> Prop :=
| joint_shape :
    joint_goal_matches stage jmg m = Some true ->
    request_shape stage jmg m
      (JointRequest (state_scene m)
         {| getRobotModel := getRobotModel (state_scene m);
            getPlanningFrame := getPlanningFrame (state_scene m);
            getCurrentState := working_state stage jmg m |}
         jmg (timeout stage) (path_constraints stage))
| cartesian_shape parent target :
    joint_goal_matches stage jmg m = Some false ->
    request_shape stage jmg m
      (CartesianRequest (state_scene m) parent target jmg (timeout stage) (path_constraints stage)).

(* resolution of the ik frame from the property and the tips of the group,
   in a scene whose current state is [state] *)
Inductive ik_frame_resolves stage (jmg : JointModelGroup R) (state : RobotState R)
  : string -> geometry_msgs.Pose R -> Prop :=
| resolves_unique_tip tip :
    ik_frame stage = None ->
    getEndEffectorTips jmg = [tip] ->
    ik_frame_resolves stage jmg state tip unit_pose
| resolves_empty_frame_id msg tip :
    ik_frame stage = Some msg ->
    geometry_msgs.pose_frame_id msg = "" ->
    getEndEffectorTips jmg = [tip] ->
    knowsFrame state tip = true ->
    ik_frame_resolves stage jmg state tip (geometry_msgs.pose msg)
| resolves_given_frame msg :
    ik_frame stage = Some msg ->
    geometry_msgs.pose_frame_id msg <> "" ->
    knowsFrame state (geometry_msgs.pose_frame_id msg) = true ->
    ik_frame_resolves stage jmg state (geometry_msgs.pose_frame_id msg) (geometry_msgs.pose msg).

(* the first name that is not a joint of the group *)
Definition first_rejected (jmg : JointModelGroup R) (names : list string) : option string :=
  List.find (fun name => bool_decide (name ∉ getJointModelNames jmg)) names.

(* the first name that is not a variable of the robot model *)
Definition first_unknown_variable (names : list string) : option string :=
  List.find (fun name => negb (isVariable name)) names.

(* the first name the loop over a joint map cannot write: a name outside the
   group, or a joint of the group that is not a variable of the robot model *)
Definition first_unwritable (jmg : JointModelGroup R) (names : list string) : option string :=
  List.find (fun name => bool_decide (name ∉ getJointModelNames jmg) || negb (isVariable name))
    names.

(* the message setGoal stores for a joint map *)
Definition joint_map_msg (joints : list (string * R)) : moveit_msgs.RobotState R :=
  {| moveit_msgs.joint_state :=
       {| moveit_msgs.name := List.map fst joints;
          moveit_msgs.position := List.map snd joints |};
     moveit_msgs.multi_dof_joint_state :=
       {| moveit_msgs.joint_names := []; moveit_msgs.transforms := [] |};
     moveit_msgs.is_diff := true |}.

(* writing the entries of a joint map, first entry first *)
Definition write_joints (joints : list (string * R)) (state : RobotState R) : RobotState R :=
  foldl (fun s joint => write_position joint.1 joint.2 s) state joints.

(* the goals getJointStateGoal has an interpretation for *)
Definition joint_space_goal (goal : any R) : bool :=
  match goal with
  | any_string _ | any_RobotState _ | any_joint_map _ => true
  | _ => false
  end.


(* the trajectory stored when the planner gave none *)
Definition fallback_trajectory (start working : RobotState R) : RobotTrajectory R :=
  {| waypoints := [start; working]; duration_from_previous := [R0; R1] |}.

(* what every request carries, whichever overload is called *)
Definition request_from (r : PlanRequest R Constraints) : PlanningScene R :=
  match r with
  | JointRequest from _ _ _ _ => from
  | CartesianRequest from _ _ _ _ _ => from
  end.

Definition request_group (r : PlanRequest R Constraints) : JointModelGroup R :=
  match r with
  | JointRequest _ _ jmg _ _ => jmg
  | CartesianRequest _ _ _ jmg _ _ => jmg
  end.

Definition request_timeout (r : PlanRequest R Constraints) : R :=
  match r with
  | JointRequest _ _ _ timeout _ => timeout
  | CartesianRequest _ _ _ _ timeout _ => timeout
  end.

Definition request_constraints (r : PlanRequest R Constraints) : Constraints :=
  match r with
  | JointRequest _ _ _ _ path_constraints => path_constraints
  | CartesianRequest _ _ _ _ _ path_constraints => path_constraints
  end.

(* the memory in the Cartesian branch once both frames were appended to the
   solution: the diff scene holds a copy of the start state *)
Definition with_frames (m : @Memory R Constraints) (target ik_pose_world : Isometry3d R)
    : @Memory R Constraints :=
  {| state_scene := state_scene m;
     scene := {| robot_state_ := Some (getCurrentState (state_scene m)) |};
     solution :=
       append_marker
         {| marker_frame_id := getPlanningFrame (state_scene m);
            marker_pose := toMsg ik_pose_world; marker_ns := "ik frame" |}
         (append_marker
            {| marker_frame_id := getPlanningFrame (state_scene m);
               marker_pose := toMsg target; marker_ns := "target frame" |}
            (solution m));
     requests := requests m |}.

End Notions.

(** ** A small robot, for concrete runs

    Scalars are integers.  The robot has two joints, j1 and j2, and three
    groups over them: "arm" with the single tip "tool", "dual" with two tips
    and "bare" with none. *)

Module Demo.

#[export] Instance Z_scalar : Scalar Z :=
  {| R0 := 0%Z; R1 := 1%Z; Radd := Z.add; Rmul := Z.mul; Ropp := Z.opp |}.

Definition unit_quaternion : geometry_msgs.Quaternion Z :=
  {| geometry_msgs.qx := 0%Z; geometry_msgs.qy := 0%Z; geometry_msgs.qz := 0%Z;
     geometry_msgs.qw := 1%Z |}.

Definition translation_by (x y z : Z) : Isometry3d Z :=
  {| Eigen.linear := Eigen.mat_identity;
     Eigen.translation := {| Eigen.vx := x; Eigen.vy := y; Eigen.vz := z |} |}.

(* a quarter turn about the vertical axis *)
Definition quarter_turn : Eigen.Matrix3d Z :=
  {| Eigen.row0 := {| Eigen.vx := 0; Eigen.vy := -1; Eigen.vz := 0 |};
     Eigen.row1 := {| Eigen.vx := 1; Eigen.vy := 0; Eigen.vz := 0 |};
     Eigen.row2 := {| Eigen.vx := 0; Eigen.vy := 0; Eigen.vz := 1 |} |}%Z.

(* the tool is carried by link1, one unit along x and j1 units up *)
Definition demo_frame (state : RobotState Z) (frame_id : string) : Isometry3d Z :=
  if bool_decide (frame_id = "link1") then
    {| Eigen.linear := quarter_turn;
       Eigen.translation := {| Eigen.vx := 1; Eigen.vy := 0; Eigen.vz := 0 |} |}%Z
  else if bool_decide (frame_id = "tool") then translation_by 1 0 (default 0%Z (state !! "j1"))
  else if bool_decide (frame_id = "table") then translation_by 0 3 0
  else Eigen.Identity.

Definition demo_parent (state : RobotState Z) (frame_id : string) : option LinkModel :=
  if bool_decide (frame_id ∈ ["tool"; "link1"]) then Some {| link_name := "link1" |}
  else None.

#[export] Instance demo_moveit : MoveIt Z :=
  {| toRotationMatrix q :=
       if bool_decide (geometry_msgs.qw q = 1%Z) then Eigen.mat_identity else quarter_turn;
     toQuaternion _ := unit_quaternion;
     frameTransform := demo_frame;
     knowsFrame _ frame_id := bool_decide (frame_id ∈ ["world"; "table"; "link1"; "tool"]);
     getRigidlyConnectedParentLinkModel := demo_parent;
     isVariable name := bool_decide (name ∈ ["j1"; "j2"]);
     setJointPositions _ _ state := state;
     print_PoseStamped msg := geometry_msgs.pose_frame_id msg |}.

Definition home : gmap string Z := {[ "j1" := 0%Z; "j2" := 0%Z ]}.

Definition arm : JointModelGroup Z :=
  {| getName := "arm"; getJointModelNames := ["j1"; "j2"];
     getEndEffectorTips := ["tool"]; default_states := {[ "home" := home ]} |}.

Definition dual : JointModelGroup Z :=
  {| getName := "dual"; getJointModelNames := ["j1"; "j2"];
     getEndEffectorTips := ["tool"; "tool2"]; default_states := ∅ |}.

Definition bare : JointModelGroup Z :=
  {| getName := "bare"; getJointModelNames := ["j1"];
     getEndEffectorTips := []; default_states := ∅ |}.

Definition robot : RobotModel Z := {| joint_model_groups := [arm; dual; bare] |}.

Definition start_state : RobotState Z := {[ "j1" := 1%Z; "j2" := 2%Z ]}.

Definition start_scene : PlanningScene Z :=
  {| getRobotModel := robot; getPlanningFrame := "world"; getCurrentState := start_state |}.

(* the memory at the call of compute: a fresh solution, no request yet *)
Definition memory : @Memory Z unit :=
  {| state_scene := start_scene; scene := {| robot_state_ := None |};
     solution := new_solution; requests := [] |}.

(* a planner that never finds a trajectory *)
Definition failing_planner : PlannerInterface Z unit :=
  {| plan _ := (false, None); planner_init _ := None |}.

(* a planner that answers a joint request with the two end points and a
   Cartesian request with the start point *)
Definition direct_planner : PlannerInterface Z unit :=
  {| plan r :=
       match r with
       | JointRequest from to _ _ _ =>
           (true, Some {| waypoints := [getCurrentState from; getCurrentState to];
                          duration_from_previous := [0%Z; 1%Z] |})
       | CartesianRequest from _ _ _ _ _ =>
           (true, Some {| waypoints := [getCurrentState from];
                          duration_from_previous := [0%Z] |})
       end;
     planner_init _ := None |}.

Definition stage (planner : PlannerInterface Z unit) (group : string)
    (ik_frame : option (geometry_msgs.PoseStamped Z)) (goal : any Z) : MoveTo Z unit :=
  {| planner_ := planner; group := group; ik_frame := ik_frame; goal := goal;
     path_constraints := tt; timeout := 1%Z; storeFailures := true |}.

Definition joint_map_goal : any Z := any_joint_map [("j1", 5%Z); ("j2", 7%Z)].

(* the state after that goal was applied to the start state *)
Definition goal_state : RobotState Z := {[ "j1" := 5%Z; "j2" := 7%Z ]}.

Definition point_msg : geometry_msgs.PointStamped Z :=
  {| geometry_msgs.point_frame_id := "table";
     geometry_msgs.point :=
       {| geometry_msgs.x := 0%Z; geometry_msgs.y := 0%Z; geometry_msgs.z := 1%Z |} |}.

Definition point_goal : any Z := any_PointStamped point_msg.

(* a point one unit above the origin of the table, reached with the tool *)
Definition point_target : Isometry3d Z :=
  {| Eigen.linear := Eigen.mat_identity;
     Eigen.translation := {| Eigen.vx := 0; Eigen.vy := 3; Eigen.vz := 1 |} |}%Z.

(* the same target, expressed for link1 *)
Definition link1_target : Isometry3d Z :=
  {| Eigen.linear := quarter_turn;
     Eigen.translation := {| Eigen.vx := 0; Eigen.vy := 3; Eigen.vz := 0 |} |}%Z.

Definition fallback_stage : MoveTo Z unit := stage failing_planner "arm" None joint_map_goal.
Definition joint_stage : MoveTo Z unit := stage direct_planner "arm" None joint_map_goal.
Definition joint_stage_two_tips : MoveTo Z unit := stage direct_planner "dual" None joint_map_goal.
Definition point_stage : MoveTo Z unit := stage direct_planner "arm" None point_goal.
Definition point_stage_two_tips : MoveTo Z unit := stage direct_planner "dual" None point_goal.
Definition point_stage_no_tip : MoveTo Z unit := stage direct_planner "bare" None point_goal.
Definition stage_without_group : MoveTo Z unit := stage direct_planner "gripper" None joint_map_goal.

(* a group that holds, next to j1, the fixed joint "weld", which has no
   variable *)
Definition welded : JointModelGroup Z :=
  {| getName := "welded"; getJointModelNames := ["j1"; "weld"];
     getEndEffectorTips := ["tool"]; default_states := ∅ |}.


(* a planner that gives up with the part of the path it found *)
Definition partial_planner : PlannerInterface Z unit :=
  {| plan r :=
       (false, Some {| waypoints := [getCurrentState (request_from r)];
                       duration_from_previous := [0%Z] |});
     planner_init _ := None |}.

(* a planner that reports success with a trajectory without waypoints *)
Definition hollow_planner : PlannerInterface Z unit :=
  {| plan _ := (true, Some empty_trajectory); planner_init _ := None |}.

(* as [stage], with failures not stored *)
Definition quiet_stage (planner : PlannerInterface Z unit) (group : string)
    (ik_frame : option (geometry_msgs.PoseStamped Z)) (goal : any Z) : MoveTo Z unit :=
  {| planner_ := planner; group := group; ik_frame := ik_frame; goal := goal;
     path_constraints := tt; timeout := 1%Z; storeFailures := false |}.

(* an offset of two units along x, given as a pose *)
Definition offset_pose : geometry_msgs.Pose Z :=
  {| geometry_msgs.position :=
       {| geometry_msgs.x := 2%Z; geometry_msgs.y := 0%Z; geometry_msgs.z := 0%Z |};
     geometry_msgs.orientation := unit_quaternion |}.

Definition offset_without_frame : geometry_msgs.PoseStamped Z :=
  {| geometry_msgs.pose_frame_id := ""; geometry_msgs.pose := offset_pose |}.
Definition offset_in_ghost : geometry_msgs.PoseStamped Z :=
  {| geometry_msgs.pose_frame_id := "ghost"; geometry_msgs.pose := offset_pose |}.
Definition offset_in_table : geometry_msgs.PoseStamped Z :=
  {| geometry_msgs.pose_frame_id := "table"; geometry_msgs.pose := offset_pose |}.

Definition pose_msg : geometry_msgs.PoseStamped Z :=
  {| geometry_msgs.pose_frame_id := "table"; geometry_msgs.pose := offset_pose |}.
Definition pose_goal : any Z := any_PoseStamped pose_msg.

(* the pose of [pose_goal] in the world *)
Definition pose_target : Isometry3d Z := translation_by 2 3 0.

Definition foreign_joints : list (string * Z) := [("j1", 5%Z); ("j3", 9%Z); ("j4", 1%Z)].

Definition no_goal_stage : MoveTo Z unit := stage direct_planner "arm" None any_empty.
Definition offset_stage_two_tips : MoveTo Z unit :=
  stage direct_planner "dual" (Some offset_without_frame) point_goal.
Definition ghost_stage : MoveTo Z unit :=
  stage direct_planner "arm" (Some offset_in_ghost) point_goal.
Definition table_stage : MoveTo Z unit :=
  stage direct_planner "arm" (Some offset_in_table) point_goal.
Definition odd_goal_stage : MoveTo Z unit := stage direct_planner "arm" None (any_other "int").
Definition pose_stage : MoveTo Z unit := stage direct_planner "arm" None pose_goal.
Definition quiet_failing_stage : MoveTo Z unit :=
  quiet_stage failing_planner "arm" None joint_map_goal.
Definition partial_stage : MoveTo Z unit := stage partial_planner "arm" None joint_map_goal.
Definition hollow_stage : MoveTo Z unit := stage hollow_planner "arm" None joint_map_goal.
Definition foreign_joint_stage : MoveTo Z unit :=
  stage direct_planner "arm" None (any_joint_map foreign_joints).
Definition failing_point_stage : MoveTo Z unit := stage failing_planner "arm" None point_goal.

End Demo.

(** * Properties *)

(** ** Rules for postconditions *)

Section WP.
Context {S : Type}.
Lemma wp_ret {A} (a : A) (Q : A + outcome -> S -> Prop) s : Q (inl a) s -> wp (mret a) Q s.
Proof. done. Qed.
Lemma wp_bind {A B} (c : M S A) (f : A -> M S B) (Q : B + outcome -> S -> Prop) s :
  wp c (fun r s' => match r with inl a => wp (f a) Q s' | inr o => Q (inr o) s' end) s ->
  wp (c ≫= f) Q s.
Proof.
  unfold wp, mbind, M_bind. destruct (c s) as [[a|o] s']; done.
Qed.
Lemma wp_gets {A} (f : S -> A) (Q : A + outcome -> S -> Prop) s : Q (inl (f s)) s -> wp (gets f) Q s.
Proof. done. Qed.
Lemma wp_modify (f : S -> S) (Q : unit + outcome -> S -> Prop) s : Q (inl tt) (f s) -> wp (modify f) Q s.
Proof. done. Qed.
Lemma wp_exit {A} o (Q : A + outcome -> S -> Prop) s : Q (inr o) s -> wp (exit_with o) Q s.
Proof. done. Qed.
Lemma wp_when (c : bool) (body : M S unit) (Q : unit + outcome -> S -> Prop) s :
  (if c then wp body Q s else Q (inl tt) s) -> wp (when c body) Q s.
Proof. destruct c; done. Qed.
End WP.

Section Properties.
Context {R Constraints : Type} `{Scalar R} `{MoveIt R}.
Implicit Types (stage : MoveTo R Constraints) (m : @Memory R Constraints).
Implicit Types (jmg : JointModelGroup R) (state : RobotState R).

Lemma wp_fail {A} msg (Q : A + outcome -> Memory -> Prop) m :
  Q (inr (Returned false)) (set_solution (markAsFailure msg) m) -> wp (fail msg) Q m.
Proof. done. Qed.
Lemma wp_planner_plan stage r (Q : _ -> Memory -> Prop) m :
  Q (inl (plan (planner_ stage) r)) (add_request r m) -> wp (planner_plan stage r) Q m.
Proof. done. Qed.
Lemma wp_add_frame pose name (Q : _ -> Memory -> Prop) m :
  Q (inl tt) (set_solution (append_marker
       {| marker_frame_id := getPlanningFrame (scene_view m); marker_pose := toMsg pose;
          marker_ns := name |}) m) -> wp (add_frame pose name) Q m.
Proof. done. Qed.
Lemma wp_on_current_state {A} (f : M (RobotState R) A) (Q : _ -> Memory -> Prop) m :
  Q (f (current_state m)).1 (set_scene (fun _ => {| robot_state_ := Some (f (current_state m)).2 |}) m) ->
  wp (on_current_state_non_const f) Q m.
Proof. done. Qed.

Ltac wp_step :=
  cbv beta iota zeta;
  lazymatch goal with
  | |- wp (mbind _ _) _ _ => apply wp_bind
  | |- wp (mret _) _ _ => apply wp_ret
  | |- wp (gets _) _ _ => apply wp_gets
  | |- wp (modify _) _ _ => apply wp_modify
  | |- wp diff _ _ => apply wp_modify
  | |- wp (exit_with _) _ _ => apply wp_exit
  | |- wp (when _ _) _ _ => apply wp_when
  | |- wp (fail _) _ _ => apply wp_fail
  | |- wp (planner_plan _ _) _ _ => apply wp_planner_plan
  | |- wp (add_frame _ _) _ _ => apply wp_add_frame
  | |- wp (on_current_state_non_const _) _ _ => apply wp_on_current_state
  end.

Ltac wp_case :=
  cbv beta iota zeta;
  lazymatch goal with
  | |- wp (match ?x with _ => _ end) _ _ => destruct x eqn:?
  | |- match ?x with _ => _ end => destruct x eqn:?
  end.

Ltac wp_run := repeat first [wp_step | wp_case].

(** ** Goal interpretation *)

Lemma first_rejected_app jmg (l1 l2 : list string) :
  first_rejected jmg (l1 ++ l2) =
  match first_rejected jmg l1 with
  | Some name => Some name
  | None => first_rejected jmg l2
  end.
Proof.
  unfold first_rejected. induction l1 as [|a l1 IH]; [done|].
  simpl. destruct (bool_decide _); done.
Qed.

(* validation loops *)
Lemma for_each_validate jmg (names : list string) state :
  for_each names (fun name =>
      when (bool_decide (name ∉ getJointModelNames jmg)) (throw (not_part_of_group name jmg))) state
  = match first_rejected jmg names with
    | Some name => (inr (Thrown {| what := not_part_of_group name jmg |}), state)
    | None => (inl tt, state)
    end.
Proof.
  induction names as [|name names IH]; [done|].
  cbn [for_each first_rejected List.find]. unfold mbind, M_bind.
  destruct (bool_decide (name ∉ getJointModelNames jmg)); [done|].
  simpl. apply IH.
Qed.

(* the loop of setVariablePositions over names that are variables *)
Lemma for_each_write_variables (l : list (string * R)) rest state :
  Forall (fun joint => isVariable joint.1 = true) l ->
  for_each (l ++ rest) (fun joint => setVariablePosition joint.1 joint.2) state
  = for_each rest (fun joint => setVariablePosition joint.1 joint.2) (write_joints l state).
Proof.
  intros Hl. revert state. induction Hl as [|joint l Hj Hl IH]; intros state; [done|].
  cbn [app for_each]. unfold mbind at 1, M_bind at 1.
  unfold setVariablePosition at 1. rewrite Hj. simpl. apply IH.
Qed.

Lemma for_each_write_unknown (l : list (string * R)) k v rest state :
  Forall (fun joint => isVariable joint.1 = true) l ->
  isVariable k = false ->
  for_each (l ++ (k, v) :: rest) (fun joint => setVariablePosition joint.1 joint.2) state
  = (inr (Raised {| unknown_variable := k |}), write_joints l state).
Proof.
  intros Hl Hk. rewrite for_each_write_variables by done.
  cbn [for_each]. unfold mbind, M_bind, setVariablePosition. simpl. by rewrite Hk.
Qed.

(* the loop over a joint map, over entries that are joints of the group and
   variables of the model *)
Lemma for_each_write_accepted jmg (l : list (string * R)) rest state :
  Forall (fun joint => joint.1 ∈ getJointModelNames jmg /\ isVariable joint.1 = true) l ->
  for_each (l ++ rest) (fun joint =>
      when (bool_decide (joint.1 ∉ getJointModelNames jmg)) (throw (not_part_of_group joint.1 jmg));;
      setVariablePosition joint.1 joint.2) state
  = for_each rest (fun joint =>
      when (bool_decide (joint.1 ∉ getJointModelNames jmg)) (throw (not_part_of_group joint.1 jmg));;
      setVariablePosition joint.1 joint.2) (write_joints l state).
Proof.
  intros Hl. revert state. induction Hl as [|joint l [Hj Hv] Hl IH]; intros state; [done|].
  cbn [app for_each]. unfold mbind at 1, M_bind at 1. unfold mbind at 1, M_bind at 1.
  rewrite bool_decide_eq_false_2 by (intros Hn; by apply Hn).
  unfold setVariablePosition at 1. rewrite Hv. simpl. apply IH.
Qed.

Lemma joint_map_all_accepted jmg (joints : list (string * R)) state :
  Forall (fun joint => joint.1 ∈ getJointModelNames jmg /\ isVariable joint.1 = true) joints ->
  run (getJointStateGoal (any_joint_map joints) jmg) state = (Returned true, write_joints joints state).
Proof.
  intros Hl. unfold run, getJointStateGoal.
  cbn [any_cast_string any_cast_RobotState any_cast_joint_map try_cast].
  unfold mbind, M_bind. simpl.
  pose proof (@for_each_write_accepted jmg joints [] state Hl) as Hfe.
  rewrite app_nil_r in Hfe. unfold mbind, M_bind in Hfe. rewrite Hfe. done.
Qed.

Lemma joint_map_rejected jmg (l rest : list (string * R)) k v state :
  Forall (fun joint => joint.1 ∈ getJointModelNames jmg /\ isVariable joint.1 = true) l ->
  k ∉ getJointModelNames jmg ->
  run (getJointStateGoal (any_joint_map (l ++ (k, v) :: rest)) jmg) state
  = (Thrown {| what := not_part_of_group k jmg |}, write_joints l state).
Proof.
  intros Hl Hk. unfold run, getJointStateGoal.
  cbn [any_cast_string any_cast_RobotState any_cast_joint_map try_cast].
  unfold mbind, M_bind. simpl.
  pose proof (@for_each_write_accepted jmg l ((k, v) :: rest) state Hl) as Hfe.
  unfold mbind, M_bind in Hfe. rewrite Hfe.
  simpl. rewrite bool_decide_eq_true_2 by done. done.
Qed.

Lemma joint_map_raised jmg (l rest : list (string * R)) k v state :
  Forall (fun joint => joint.1 ∈ getJointModelNames jmg /\ isVariable joint.1 = true) l ->
  k ∈ getJointModelNames jmg ->
  isVariable k = false ->
  run (getJointStateGoal (any_joint_map (l ++ (k, v) :: rest)) jmg) state
  = (Raised {| unknown_variable := k |}, write_joints l state).
Proof.
  intros Hl Hk Hv. unfold run, getJointStateGoal.
  cbn [any_cast_string any_cast_RobotState any_cast_joint_map try_cast].
  unfold mbind, M_bind. simpl.
  pose proof (@for_each_write_accepted jmg l ((k, v) :: rest) state Hl) as Hfe.
  unfold mbind, M_bind in Hfe. rewrite Hfe.
  simpl. rewrite bool_decide_eq_false_2 by (intros Hn; by apply Hn).
  unfold setVariablePosition. rewrite Hv. done.
Qed.

(* a joint map is written whole, or has a first entry that is not *)
Lemma first_unwritable_split jmg (joints : list (string * R)) :
  match first_unwritable jmg (List.map fst joints) with
  | None =>
      Forall (fun joint => joint.1 ∈ getJointModelNames jmg /\ isVariable joint.1 = true) joints
  | Some k =>
      exists l v rest, joints = l ++ (k, v) :: rest /\
        Forall (fun joint => joint.1 ∈ getJointModelNames jmg /\ isVariable joint.1 = true) l /\
        (k ∉ getJointModelNames jmg \/ k ∈ getJointModelNames jmg /\ isVariable k = false)
  end.
Proof.
  unfold first_unwritable.
  induction joints as [|[k v] joints IH]; [by constructor|]. cbn [List.map List.find fst].
  case_bool_decide as Hk; cbn [orb].
  { exists [], v, joints. split; [done|]. split; [done|]. by left. }
  destruct (isVariable k) eqn:Hv; cbn [negb].
  2:{ exists [], v, joints. split; [done|]. split; [done|]. right. split; [|done].
      by destruct (decide (k ∈ getJointModelNames jmg)). }
  assert (k ∈ getJointModelNames jmg) as Hin.
  { by destruct (decide (k ∈ getJointModelNames jmg)). }
  destruct (List.find _ _) as [k'|].
  - destruct IH as (l & v' & rest & -> & Hl & Hk'). exists ((k, v) :: l), v', rest.
    split; [done|]. split; [|done]. by constructor.
  - by constructor.
Qed.

(* the result of getJointStateGoal on a joint map *)
Lemma joint_map_outcome jmg (joints : list (string * R)) state :
  (run (getJointStateGoal (any_joint_map joints) jmg) state).1 =
  match first_unwritable jmg (List.map fst joints) with
  | None => Returned true
  | Some name =>
      if bool_decide (name ∈ getJointModelNames jmg)
      then Raised {| unknown_variable := name |}
      else Thrown {| what := not_part_of_group name jmg |}
  end.
Proof.
  pose proof (first_unwritable_split jmg joints) as Hsplit.
  destruct (first_unwritable jmg _) as [k|].
  - destruct Hsplit as (l & v & rest & -> & Hl & [Hk|[Hk Hv]]).
    + rewrite joint_map_rejected by done. by rewrite bool_decide_eq_false_2.
    + rewrite joint_map_raised by done. by rewrite bool_decide_eq_true_2.
  - by rewrite joint_map_all_accepted.
Qed.


Lemma named_pose jmg n state :
  run (getJointStateGoal (any_string n) jmg) state =
  match default_states jmg !! n with
  | Some values => (Returned true, values ∪ state)
  | None => (Thrown {| what := "Unknown joint pose: " +:+ n |}, state)
  end.
Proof.
  unfold run, getJointStateGoal.
  cbn [any_cast_string any_cast_RobotState any_cast_joint_map try_cast].
  unfold mbind, M_bind, setToDefaultValues. simpl.
  destruct (default_states jmg !! n); done.
Qed.

Lemma robot_state_not_diff jmg msg state :
  moveit_msgs.is_diff msg = false ->
  run (getJointStateGoal (any_RobotState msg) jmg) state =
  (Thrown {| what := "Expecting a diff state" |}, state).
Proof.
  intros Hd. unfold run, getJointStateGoal.
  cbn [any_cast_string any_cast_RobotState any_cast_joint_map try_cast].
  unfold mbind, M_bind. simpl. rewrite Hd. done.
Qed.

Lemma robot_state_diff jmg msg state :
  moveit_msgs.is_diff msg = true ->
  run (getJointStateGoal (any_RobotState msg) jmg) state =
  match first_rejected jmg (moveit_msgs.name (moveit_msgs.joint_state msg) ++
                            moveit_msgs.joint_names (moveit_msgs.multi_dof_joint_state msg)) with
  | Some name => (Thrown {| what := not_part_of_group name jmg |}, state)
  | None => run (robotStateMsgToRobotState msg;; return_ true) state
  end.
Proof.
  intros Hd. unfold run, getJointStateGoal.
  cbn [any_cast_string any_cast_RobotState any_cast_joint_map try_cast].
  unfold mbind at 1 2 3 4 5 6, M_bind at 1 2 3 4 5 6. simpl. rewrite Hd. simpl.
  rewrite for_each_validate, first_rejected_app.
  destruct (first_rejected jmg _) as [name|]; [done|].
  rewrite for_each_validate.
  destruct (first_rejected jmg _); [done|].
  unfold mbind, M_bind.
  by destruct (robotStateMsgToRobotState msg state) as [[[]|o] state'].
Qed.

Lemma for_each_write_outcome (l : list (string * R)) state :
  (for_each l (fun joint => setVariablePosition joint.1 joint.2) state).1 = inl tt \/
  exists name value, (name, value) ∈ l /\ isVariable name = false /\
    (for_each l (fun joint => setVariablePosition joint.1 joint.2) state).1 =
      inr (Raised {| unknown_variable := name |}).
Proof.
  revert state. induction l as [|[k v] l IH]; intros state; [by left|].
  cbn [for_each]. unfold mbind, M_bind. unfold setVariablePosition at 1 3. cbn [fst snd].
  destruct (isVariable k) eqn:Hv.
  - cbn. destruct (IH (write_position k v state)) as [Hok|(name & value & Hin & Hn & Hr)];
      [by left|right].
    exists name, value. split; [by apply list_elem_of_further|]. done.
  - right. exists k, v. split; [by apply list_elem_of_here|]. done.
Qed.

Lemma for_each_modify {S A} (l : list A) (f : A -> S -> S) (s : S) :
  for_each l (fun a => modify (f a)) s = (inl tt, foldl (fun s a => f a s) s l).
Proof.
  revert s. induction l as [|a l IH]; intros s; [done|].
  cbn [for_each foldl]. unfold mbind, M_bind. simpl. apply IH.
Qed.

Lemma multiDOFJointsToRobotState_returns mjs state :
  (multiDOFJointsToRobotState mjs state).1 = inl tt.
Proof.
  unfold multiDOFJointsToRobotState. cbv zeta.
  destruct (bool_decide _); [|done]. by rewrite for_each_modify.
Qed.

(* the conversion of a message ends normally, or at a name of its joint
   state that is not a variable of the model *)
Lemma conversion_outcome msg state :
  (robotStateMsgToRobotState msg state).1 = inl tt \/
  exists name, name ∈ moveit_msgs.name (moveit_msgs.joint_state msg) /\
    isVariable name = false /\
    (robotStateMsgToRobotState msg state).1 = inr (Raised {| unknown_variable := name |}).
Proof.
  unfold robotStateMsgToRobotState. cbv zeta. unfold mbind at 1 3, M_bind at 1 3.
  destruct (negb _ && _ && _); [by left|].
  unfold mbind, M_bind, jointStateToRobotState. cbv zeta.
  destruct (bool_decide (length _ = length _)).
  2:{ left. cbn. pose proof (multiDOFJointsToRobotState_returns
        (moveit_msgs.multi_dof_joint_state msg) state) as Hm.
      by destruct (multiDOFJointsToRobotState _ _) as [[[]|o] s']. }
  destruct (bool_decide (moveit_msgs.position _ = [])); cbn [negb when].
  { left. cbn. pose proof (multiDOFJointsToRobotState_returns
        (moveit_msgs.multi_dof_joint_state msg) state) as Hm.
    by destruct (multiDOFJointsToRobotState _ _) as [[[]|o] s']. }
  unfold setVariablePositions_vectors.
  destruct (for_each_write_outcome
              (zip (moveit_msgs.name (moveit_msgs.joint_state msg))
                   (moveit_msgs.position (moveit_msgs.joint_state msg))) state)
    as [Hok|(name & value & Hin & Hn & Hr)].
  - left. destruct (for_each _ _ state) as [[[]|o] s']; [|done].
    pose proof (multiDOFJointsToRobotState_returns
        (moveit_msgs.multi_dof_joint_state msg) s') as Hm.
    by destruct (multiDOFJointsToRobotState _ _) as [[[]|o] s''].
  - right. exists name. split; [by apply elem_of_zip_l in Hin|]. split; [done|].
    destruct (for_each _ _ state) as [[[]|o] s']; [done|]. by simplify_eq/=.
Qed.

Lemma first_unknown_variable_none (names : list string) :
  first_unknown_variable names = None <-> Forall (fun name => isVariable name = true) names.
Proof.
  unfold first_unknown_variable. induction names as [|name names IH]; [done|].
  cbn [List.find]. rewrite Forall_cons. destruct (isVariable name); cbn [negb].
  - rewrite IH. tauto.
  - split; [done|]. by intros [? _].
Qed.

Lemma first_unknown_variable_split (joints : list (string * R)) :
  match first_unknown_variable (List.map fst joints) with
  | None => Forall (fun joint => isVariable joint.1 = true) joints
  | Some k =>
      exists l v rest, joints = l ++ (k, v) :: rest /\
        Forall (fun joint => isVariable joint.1 = true) l /\ isVariable k = false
  end.
Proof.
  unfold first_unknown_variable.
  induction joints as [|[k v] joints IH]; [by constructor|]. cbn [List.map List.find fst].
  destruct (isVariable k) eqn:Hv; cbn [negb].
  2:{ by exists [], v, joints. }
  destruct (List.find _ _) as [k'|].
  - destruct IH as (l & v' & rest & -> & Hl & Hk'). exists ((k, v) :: l), v', rest.
    split; [done|]. split; [|done]. by constructor.
  - by constructor.
Qed.

Lemma conversion_run msg state :
  run (robotStateMsgToRobotState msg;; return_ true) state =
  (match (robotStateMsgToRobotState msg state).1 with
   | inl _ => Returned true
   | inr o => o
   end, (robotStateMsgToRobotState msg state).2).
Proof.
  unfold run, mbind, M_bind.
  by destruct (robotStateMsgToRobotState msg state) as [[[]|o] state'].
Qed.

(* the conversion of the message setGoal stores is the loop of
   setVariablePositions over the entries of the map *)
Lemma joint_map_msg_conversion (joints : list (string * R)) state :
  robotStateMsgToRobotState (joint_map_msg joints) state =
  for_each joints (fun joint => setVariablePosition joint.1 joint.2) state.
Proof.
  assert (zip (List.map fst joints) (List.map snd joints) = joints) as Hzip.
  { induction joints as [|[k v] joints IH]; [done|]. cbn. by rewrite IH. }
  unfold robotStateMsgToRobotState, joint_map_msg, jointStateToRobotState,
    multiDOFJointsToRobotState, setVariablePositions_vectors.
  cbn [moveit_msgs.joint_state moveit_msgs.multi_dof_joint_state moveit_msgs.is_diff
       moveit_msgs.name moveit_msgs.position moveit_msgs.joint_names moveit_msgs.transforms
       negb andb]. cbv zeta.
  rewrite !length_map. rewrite Hzip.
  unfold mbind, M_bind.
  destruct joints as [|joint joints]; [done|].
  rewrite bool_decide_eq_true_2 by done.
  rewrite bool_decide_eq_false_2 by done. cbn [negb when].
  by destruct (for_each _ _ state) as [[[]|o] s'].
Qed.

Lemma no_joint_goal (goal : any R) jmg state :
  joint_space_goal goal = false ->
  getJointStateGoal goal jmg state = (inl false, state).
Proof. destruct goal; done. Qed.

(** ** The first part of compute *)

Lemma plan_goal_wp stage m (Q : _ -> Memory -> Prop) :
  (forall o m1, o <> Returned true -> state_scene m1 = state_scene m ->
     requests m1 = requests m ->
     trajectory (solution m1) = trajectory (solution m) ->
     (forall e, o = Thrown e -> joint_space_goal (goal stage) = true) ->
     (forall e, o = Raised e -> joint_space_goal (goal stage) = true) ->
     Q (inr o) m1) ->
  (forall jmg r m0,
     getJointModelGroup (getRobotModel (state_scene m)) (group stage) = Some jmg ->
     request_shape stage jmg m r ->
     state_scene m0 = state_scene m ->
     requests m0 = requests m ->
     robot_state_ (scene m0) = Some (working_state stage jmg m) ->
     trajectory (solution m0) = trajectory (solution m) ->
     isFailure (solution m0) = isFailure (solution m) ->
     comment (solution m0) = comment (solution m) ->
     Q (inl (plan (planner_ stage) r)) (add_request r m0)) ->
  wp (plan_goal stage) Q m.
Proof.
  intros Hexit Hplan. unfold plan_goal.
  repeat wp_step. cbn [scene_view getRobotModel set_scene state_scene].
  destruct (getJointModelGroup _ _) as [jmg|] eqn:Hjmg.
  2:{ repeat wp_step. by apply Hexit. }
  repeat wp_step.
  destruct (empty (goal stage)) eqn:Hempty.
  { repeat wp_step. by apply Hexit. }
  repeat wp_step.
  replace (current_state _) with (getCurrentState (state_scene m)) by done.
  pose proof (eq_refl (joint_goal_matches stage jmg m)) as Hm. unfold joint_goal_matches at 1 in Hm.
  fold (working_state stage jmg m).
  destruct (call _ _).1 as [b|o] eqn:Hcall.
  2:{ apply Hexit; try done.
      - unfold call in Hcall.
        destruct (getJointStateGoal _ _ _) as [[?|[]] ?]; simplify_eq/=; done.
      - intros e _. destruct (joint_space_goal (goal stage)) eqn:Hj; [done|].
        unfold call in Hcall. by rewrite no_joint_goal in Hcall.
      - intros e _. destruct (joint_space_goal (goal stage)) eqn:Hj; [done|].
        unfold call in Hcall. by rewrite no_joint_goal in Hcall. }
  set (m0 := set_scene _ _).
  assert (state_scene m0 = state_scene m /\ requests m0 = requests m /\
          robot_state_ (scene m0) = Some (working_state stage jmg m) /\
          solution m0 = solution m) as (Hs & Hr & Hw & Hsol) by done.
  clearbody m0.
  repeat wp_step. destruct b.
  - repeat wp_step.
    apply (Hplan jmg); try done; [|by rewrite Hsol..].
    unfold scene_view, current_state. rewrite Hs, Hw. by constructor.
  - wp_run.
    all: try (apply Hexit; simpl; by rewrite ?Hsol).
    all: cbv beta iota zeta.
    all: apply (Hplan jmg); simpl; try done; try by rewrite Hsol.
    all: rewrite Hs; by constructor.
Qed.

Lemma plan_goal_returns stage m planned m1 :
  plan_goal stage m = (inl planned, m1) ->
  exists jmg r m0,
    getJointModelGroup (getRobotModel (state_scene m)) (group stage) = Some jmg /\
    request_shape stage jmg m r /\
    planned = plan (planner_ stage) r /\
    m1 = add_request r m0 /\
    state_scene m0 = state_scene m /\
    requests m0 = requests m /\
    robot_state_ (scene m0) = Some (working_state stage jmg m) /\
    trajectory (solution m0) = trajectory (solution m) /\
    isFailure (solution m0) = isFailure (solution m) /\
    comment (solution m0) = comment (solution m).
Proof.
  intros Hrun.
  pose proof (@plan_goal_wp stage m (fun res mm => forall p, res = inl p ->
    exists jmg r m0,
      getJointModelGroup (getRobotModel (state_scene m)) (group stage) = Some jmg /\
      request_shape stage jmg m r /\ p = plan (planner_ stage) r /\ mm = add_request r m0 /\
      state_scene m0 = state_scene m /\ requests m0 = requests m /\
      robot_state_ (scene m0) = Some (working_state stage jmg m) /\
      trajectory (solution m0) = trajectory (solution m) /\
      isFailure (solution m0) = isFailure (solution m) /\
      comment (solution m0) = comment (solution m))) as Hwp.
  unfold wp in Hwp. rewrite Hrun in Hwp. apply Hwp; [done| |done].
  intros jmg r m0 ? ? ? ? ? ? ? ? p [= <-]. by exists jmg, r, m0.
Qed.

Lemma plan_goal_exits stage m o m1 :
  plan_goal stage m = (inr o, m1) ->
  o <> Returned true /\ state_scene m1 = state_scene m /\ requests m1 = requests m /\
  trajectory (solution m1) = trajectory (solution m) /\
  (forall e, o = Thrown e -> joint_space_goal (goal stage) = true) /\
  (forall e, o = Raised e -> joint_space_goal (goal stage) = true).
Proof.
  intros Hrun.
  pose proof (@plan_goal_wp stage m (fun res mm => forall o', res = inr o' ->
    o' <> Returned true /\ state_scene mm = state_scene m /\ requests mm = requests m /\
    trajectory (solution mm) = trajectory (solution m) /\
    (forall e, o' = Thrown e -> joint_space_goal (goal stage) = true) /\
    (forall e, o' = Raised e -> joint_space_goal (goal stage) = true))) as Hwp.
  unfold wp in Hwp. rewrite Hrun in Hwp. apply Hwp; [|done|done].
  by intros o' mm ? ? ? ? ? ? ? [= <-].
Qed.

(** ** The second part of compute *)

(* the trajectory handed to the last block: the planner's, or the fallback *)
Lemma store_result_eq stage dir planned m1 :
  let candidate :=
    if bool_decide (planned.2 = None) && storeFailures stage
    then Some (fallback_trajectory (getCurrentState (state_scene m1)) (current_state m1))
    else planned.2 in
  store_result stage dir planned m1 =
  match candidate with
  | None => (inl false, m1)
  | Some t =>
      match getLastWayPoint t with
      | None => (inr (Fault "getLastWayPoint()"), m1)
      | Some last =>
          (inl true,
           set_solution (if planned.1 then id else markAsFailure "")
             (set_solution (setTrajectory match dir with FORWARD => t | BACKWARD => reverse t end)
                (set_scene (fun _ => {| robot_state_ := Some last |}) m1)))
      end
  end.
Proof.
  destruct planned as [success robot_trajectory]. unfold store_result. cbn [fst snd].
  unfold mbind at 1, M_bind at 1.
  destruct (bool_decide (robot_trajectory = None) && storeFailures stage); cbn.
  - by destruct success.
  - destruct robot_trajectory as [t|]; [|done]. cbn.
    destruct (getLastWayPoint t); [|done]. by destruct success.
Qed.

Lemma compute_eq stage dir m :
  compute stage dir m =
  match plan_goal stage m with
  | (inl planned, m1) => store_result stage dir planned m1
  | (inr o, m1) => (inr o, m1)
  end.
Proof. reflexivity. Qed.

Lemma reverse_durations (t : RobotTrajectory R) d0 ds :
  duration_from_previous t = d0 :: ds ->
  duration_from_previous (reverse t) = d0 :: rev ds.
Proof.
  intros Hd. unfold reverse. cbn [duration_from_previous]. rewrite Hd.
  rewrite rev_app_distr. cbn [rev app].
  change (d0 :: rev ds ++ [d0]) with ((d0 :: rev ds) ++ [d0]).
  apply removelast_last.
Qed.

Lemma run_wp {S} (c : M S bool) (P : outcome * S -> Prop) s :
  wp c (fun r s' => P (match r with inl b => Returned b | inr o => o end, s')) s ->
  P (run c s).
Proof. unfold wp, run. by destruct (c s) as [[b|o] s']. Qed.

Lemma run_compute_eq stage dir m :
  run (compute stage dir) m =
  match plan_goal stage m with
  | (inl planned, m1) => run (store_result stage dir planned) m1
  | (inr o, m1) => (o, m1)
  end.
Proof. unfold run. rewrite compute_eq. by destruct (plan_goal stage m) as [[planned|o] m1]. Qed.

(** ** Claims *)

(** C1, as amended.  When the planner reports failure and leaves no
    trajectory, and failures are stored, compute returns true and stores a
    trajectory of exactly two waypoints with durations 0 and 1: the start
    configuration followed by the working configuration in the forward
    direction, the same two waypoints in the opposite order in the backward
    direction.  The solution is marked as a failure; no message is attached,
    the comment of the solution is left as it was. *)
Theorem failure_fallback stage dir m m1 :
  storeFailures stage = true ->
  plan_goal stage m = (inl (false, None), m1) ->
  let start := getCurrentState (state_scene m) in
  let working := current_state m1 in
  let stored :=
    match dir with
    | FORWARD => fallback_trajectory start working
    | BACKWARD => reverse (fallback_trajectory start working)
    end in
  exists m',
    run (compute stage dir) m = (Returned true, m') /\
    trajectory (solution m') = Some stored /\
    waypoints stored =
      match dir with FORWARD => [start; working] | BACKWARD => [working; start] end /\
    duration_from_previous stored = [R0; R1] /\
    isFailure (solution m') = true /\
    comment (solution m') = comment (solution m) /\
    exists jmg,
      getJointModelGroup (getRobotModel (state_scene m)) (group stage) = Some jmg /\
      working = working_state stage jmg m.
Proof.
  intros Hstore Hplan start working stored.
  destruct (plan_goal_returns _ _ Hplan)
    as (jmg & r & m0 & Hjmg & _ & _ & -> & Hs & _ & Hw & _ & _ & Hc).
  rewrite run_compute_eq, Hplan. unfold run. rewrite store_result_eq.
  cbn [fst snd]. rewrite Hstore. cbn [bool_decide decide_rel andb].
  replace (bool_decide (None = None)) with true by done. cbn [andb].
  change (getCurrentState (state_scene (add_request r m0))) with (getCurrentState (state_scene m0)).
  rewrite Hs. fold start working.
  eexists. split; [reflexivity|]. subst stored.
  split; [by destruct dir|]. split; [by destruct dir|]. split; [by destruct dir|].
  split; [by destruct dir|]. split.
  - cbn. rewrite <- Hc. by rewrite bool_decide_eq_true_2.
  - exists jmg. split; [done|]. unfold working, current_state. cbn. by rewrite Hw.
Qed.

(** C7.  Whenever the forward invocation stores a trajectory, the backward
    invocation from the same memory with the same planner stores the reverse
    of it: the waypoints in the opposite order, the first duration kept and
    the durations between waypoints in the opposite order.  In both
    directions the current state of the diff scene is the last waypoint of
    the trajectory before reversal. *)
Theorem time_reversal stage m :
  (run (compute stage FORWARD) m).1 = Returned true ->
  exists t last,
    trajectory (solution (run (compute stage FORWARD) m).2) = Some t /\
    (run (compute stage BACKWARD) m).1 = Returned true /\
    trajectory (solution (run (compute stage BACKWARD) m).2) = Some (reverse t) /\
    waypoints (reverse t) = rev (waypoints t) /\
    (forall d0 ds, duration_from_previous t = d0 :: ds ->
                   duration_from_previous (reverse t) = d0 :: rev ds) /\
    getLastWayPoint t = Some last /\
    robot_state_ (scene (run (compute stage FORWARD) m).2) = Some last /\
    robot_state_ (scene (run (compute stage BACKWARD) m).2) = Some last.
Proof.
  rewrite !run_compute_eq.
  destruct (plan_goal stage m) as [[planned|o] m1] eqn:Hplan.
  2:{ intros Ho. simpl in Ho. by destruct (plan_goal_exits _ _ Hplan) as [Hne _]. }
  unfold run. rewrite !store_result_eq. cbv zeta.
  destruct (if bool_decide (planned.2 = None) && storeFailures stage then _ else _) as [t|];
    [|done].
  destruct (getLastWayPoint t) as [last|] eqn:Hlast; [|done].
  intros _. exists t, last. cbn.
  split; [by destruct planned.1|]. split; [done|].
  split; [by destruct planned.1|]. split; [done|].
  split; [apply reverse_durations|]. done.
Qed.

(** C9.  On every path of compute (true or false returned, an exception
    thrown out of goal interpretation, or a fault) the scene of the interface
    state is the one compute was called with: the robot state is only ever
    written in the diff scene created by the first statement. *)
Theorem parent_scene_unchanged stage dir m :
  state_scene (run (compute stage dir) m).2 = state_scene m /\
  getCurrentState (state_scene (run (compute stage dir) m).2) = getCurrentState (state_scene m).
Proof.
  assert (state_scene (run (compute stage dir) m).2 = state_scene m) as Hs;
    [|by rewrite Hs].
  rewrite run_compute_eq.
  destruct (plan_goal stage m) as [[planned|o] m1] eqn:Hplan.
  - destruct (plan_goal_returns _ _ Hplan) as (jmg & r & m0 & _ & _ & _ & -> & Hs & _).
    unfold run. rewrite store_result_eq. cbv zeta.
    destruct (if bool_decide (planned.2 = None) && storeFailures stage then _ else _) as [t|];
      [|done].
    by destruct (getLastWayPoint t).
  - by destruct (plan_goal_exits _ _ Hplan) as (_ & Hs & _).
Qed.

Lemma store_result_requests stage dir planned m1 :
  requests (store_result stage dir planned m1).2 = requests m1.
Proof.
  rewrite store_result_eq. cbv zeta.
  destruct (if bool_decide (planned.2 = None) && storeFailures stage then _ else _) as [t|];
    [|done].
  by destruct (getLastWayPoint t).
Qed.

Lemma compute_requests stage dir m :
  requests (run (compute stage dir) m).2 = requests (plan_goal stage m).2.
Proof.
  rewrite run_compute_eq. destruct (plan_goal stage m) as [[planned|o] m1]; [|done].
  cbn [snd]. rewrite <- (store_result_requests stage dir planned m1). unfold run.
  by destruct (store_result stage dir planned m1) as [[b|o] m2].
Qed.

Lemma call_no_joint_goal (goal : any R) jmg state :
  joint_space_goal goal = false ->
  call (getJointStateGoal goal jmg) state = (inl false, state).
Proof. intros Hg. unfold call. by rewrite no_joint_goal. Qed.

Lemma first_rejected_none jmg (names : list string) :
  first_rejected jmg names = None <-> Forall (fun name => name ∈ getJointModelNames jmg) names.
Proof.
  unfold first_rejected. induction names as [|name names IH]; [done|].
  cbn [List.find]. rewrite Forall_cons. case_bool_decide as Hn.
  - split; [done|]. by intros [? _].
  - rewrite IH. tauto.
Qed.

Ltac mem_simpl :=
  unfold scene_view, current_state, getFrameTransform, knowsFrameTransform,
    set_scene, set_solution, add_request;
  cbn [state_scene scene solution requests getRobotModel getPlanningFrame getCurrentState
       robot_state_ fst snd geometry_msgs.pose_frame_id geometry_msgs.pose].

Ltac wp_known :=
  lazymatch goal with
  | H : ?x = _ |- wp (match ?x with _ => _ end) _ _ => rewrite H
  | H : ?x = _ |- match ?x with _ => _ end => rewrite H
  end.

(* follows one path of the code, the one selected by the hypotheses *)
Ltac wp_go :=
  repeat first
    [ wp_step
    | rewrite call_no_joint_goal by done; cbn [fst snd]
    | progress (cbv beta iota zeta; mem_simpl)
    | wp_known
    | rewrite bool_decide_eq_true_2 by done
    | rewrite bool_decide_eq_false_2 by done ].

(** X22.  When compute is invoked for a stage whose property "group" names
    no joint group of the robot model, it marks the solution as failed with
    the message "invalid joint model group: " followed by the name and
    returns false, without a planner call, an exception or a write to the
    robot state. *)
Theorem unknown_group_fails_in_compute stage dir m :
  getJointModelGroup (getRobotModel (state_scene m)) (group stage) = None ->
  run (compute stage dir) m =
    (Returned false,
     {| state_scene := state_scene m;
        scene := {| robot_state_ := None |};
        solution := markAsFailure ("invalid joint model group: " +:+ group stage) (solution m);
        requests := requests m |}).
Proof.
  intros Hgroup. apply run_wp. unfold compute, plan_goal. wp_go. done.
Qed.

(** C5, as amended.  When the goal is defined and is not a joint-space goal,
    the group exists, the property ik_frame is unset and the group exposes
    no tip or several tips, compute marks the solution as failed with the
    message "missing ik_frame" (the same for no tip and for several) and
    returns false before any planner call. *)
Theorem missing_ik_frame stage dir m jmg :
  getJointModelGroup (getRobotModel (state_scene m)) (group stage) = Some jmg ->
  empty (goal stage) = false ->
  joint_space_goal (goal stage) = false ->
  ik_frame stage = None ->
  length (getEndEffectorTips jmg) <> 1 ->
  run (compute stage dir) m =
    (Returned false,
     {| state_scene := state_scene m;
        scene := {| robot_state_ := Some (getCurrentState (state_scene m)) |};
        solution := markAsFailure "missing ik_frame" (solution m);
        requests := requests m |}).
Proof.
  intros Hgroup Hempty Hgoal Hik Htips.
  assert (get_tip jmg = None) as Htip.
  { unfold get_tip. by destruct (getEndEffectorTips jmg) as [|? []]. }
  apply run_wp. unfold compute, plan_goal. wp_go. done.
Qed.

Lemma getPoseGoal_state (goal : any R) (sc sc' : PlanningScene R) :
  getCurrentState sc = getCurrentState sc' -> getPoseGoal goal sc = getPoseGoal goal sc'.
Proof. intros Hs. unfold getPoseGoal, getFrameTransform. by rewrite Hs. Qed.

Lemma getPointGoal_state (goal : any R) ik_pose (sc sc' : PlanningScene R) :
  getCurrentState sc = getCurrentState sc' ->
  getPointGoal goal ik_pose sc = getPointGoal goal ik_pose sc'.
Proof. intros Hs. unfold getPointGoal, getFrameTransform. by rewrite Hs. Qed.

Lemma cartesian_goal_not_joint (goal : any R) ik_pose (sc : PlanningScene R) target :
  getPoseGoal goal sc = Some target \/ getPointGoal goal ik_pose sc = Some target ->
  empty goal = false /\ joint_space_goal goal = false.
Proof. by destruct goal; intros [?|?]. Qed.

(** X21.  For a pose or point goal that resolves to the world-frame target
    [target], with the ik frame resolved to a frame and an offset, and when
    that frame has a rigidly connected parent link [parent], compute sends
    the planner exactly one request: a Cartesian request for the link
    [parent] whose target is [target], times the inverse of the world pose
    of the ik frame, times the transform of the frame of [parent]. *)
Theorem cartesian_request_rebased stage dir m jmg frame_id pose target parent :
  let state := getCurrentState (state_scene m) in
  let ik_pose_world := frameTransform state frame_id *i fromMsg_Pose pose in
  getJointModelGroup (getRobotModel (state_scene m)) (group stage) = Some jmg ->
  ik_frame_resolves stage jmg state frame_id pose ->
  getPoseGoal (goal stage) (state_scene m) = Some target \/
    getPointGoal (goal stage) ik_pose_world (state_scene m) = Some target ->
  getRigidlyConnectedParentLinkModel state frame_id = Some parent ->
  requests (run (compute stage dir) m).2 =
  requests m ++
    [CartesianRequest (state_scene m) parent
       (target *i Eigen.inverse ik_pose_world *i frameTransform state (link_name parent))
       jmg (timeout stage) (path_constraints stage)].
Proof.
  intros state ik_pose_world Hgroup Hik Htarget Hparent.
  destruct (cartesian_goal_not_joint _ _ _ Htarget) as [Hempty Hjoint].
  rewrite compute_requests.
  set (sc := {| getRobotModel := getRobotModel (state_scene m);
                getPlanningFrame := getPlanningFrame (state_scene m);
                getCurrentState := state |}).
  assert (getPoseGoal (goal stage) sc = Some target \/
          getPoseGoal (goal stage) sc = None /\
          getPointGoal (goal stage) ik_pose_world sc = Some target) as Hsc.
  { rewrite (getPoseGoal_state _ sc (state_scene m)) by done.
    rewrite (getPointGoal_state _ _ sc (state_scene m)) by done.
    destruct Htarget as [Ht|Ht]; [by left|]. right. split; [|done].
    by destruct (goal stage). }
  clear Htarget.
  change (requests (plan_goal stage m).2 = requests m ++ [CartesianRequest (state_scene m) parent
       (target *i Eigen.inverse ik_pose_world *i frameTransform state (link_name parent))
       jmg (timeout stage) (path_constraints stage)])
    with (wp (plan_goal stage) (fun _ mm => requests mm = requests m ++
       [CartesianRequest (state_scene m) parent
       (target *i Eigen.inverse ik_pose_world *i frameTransform state (link_name parent))
       jmg (timeout stage) (path_constraints stage)]) m).
  subst sc ik_pose_world state. unfold plan_goal.
  destruct Hik as [tip Hnone Htips|msg tip Hsome Hid Htips Hknown|msg Hsome Hid Hknown].
  - assert (get_tip jmg = Some tip) as Htip by (unfold get_tip; by rewrite Htips).
    destruct Hsc as [Hpose|[Hpose Hpoint]]; wp_go; done.
  - assert (get_tip jmg = Some tip) as Htip by (unfold get_tip; by rewrite Htips).
    destruct Hsc as [Hpose|[Hpose Hpoint]]; wp_go; done.
  - destruct Hsc as [Hpose|[Hpose Hpoint]]; wp_go; done.
Qed.

Lemma store_result_markers stage dir planned m1 :
  markers (solution (store_result stage dir planned m1).2) = markers (solution m1).
Proof.
  rewrite store_result_eq. cbv zeta.
  destruct (if bool_decide (planned.2 = None) && storeFailures stage then _ else _) as [t|];
    [|done].
  destruct (getLastWayPoint t); [|done]. by destruct planned.1.
Qed.

Lemma wp_store_result_markers stage dir planned m1 (l : list (FrameMarker R)) :
  markers (solution m1) = l ->
  wp (store_result stage dir planned) (fun _ s' => markers (solution s') = l) m1.
Proof. intros <-. unfold wp. apply store_result_markers. Qed.

(** C4.  A point goal is not a pose goal; getPointGoal gives it a target
    whose rotation is that of the world pose of the ik frame, computed
    before, and whose translation is the point of the goal transformed by
    the frame transform of the frame of the goal.  In compute this target,
    before it is re-based to the parent link, is the pose of the marker
    "target frame" appended to the solution, next to the marker "ik frame"
    that holds the world pose of the ik frame. *)
Theorem point_goal_keeps_orientation stage dir m jmg frame_id pose
    (msg : geometry_msgs.PointStamped R) :
  let state := getCurrentState (state_scene m) in
  let ik_pose_world := frameTransform state frame_id *i fromMsg_Pose pose in
  let target_point :=
    Eigen.apply (frameTransform state (geometry_msgs.point_frame_id msg))
                (fromMsg_Point (geometry_msgs.point msg)) in
  getJointModelGroup (getRobotModel (state_scene m)) (group stage) = Some jmg ->
  goal stage = any_PointStamped msg ->
  ik_frame_resolves stage jmg state frame_id pose ->
  getPoseGoal (goal stage) (state_scene m) = None /\
  exists target,
    getPointGoal (goal stage) ik_pose_world (state_scene m) = Some target /\
    Eigen.linear target = Eigen.linear ik_pose_world /\
    Eigen.translation target = target_point /\
    markers (solution (run (compute stage dir) m).2) =
      markers (solution m) ++
        [ {| marker_frame_id := getPlanningFrame (state_scene m);
             marker_pose := toMsg target; marker_ns := "target frame" |};
          {| marker_frame_id := getPlanningFrame (state_scene m);
             marker_pose := toMsg ik_pose_world; marker_ns := "ik frame" |} ].
Proof.
  intros state ik_pose_world target_point Hgroup Hgoal Hik.
  split; [by rewrite Hgoal|].
  exists (Eigen.set_translation ik_pose_world target_point).
  split; [by rewrite Hgoal|]. split; [done|]. split; [done|].
  assert (empty (goal stage) = false) as Hempty by (by rewrite Hgoal).
  assert (joint_space_goal (goal stage) = false) as Hjoint by (by rewrite Hgoal).
  subst ik_pose_world target_point state.
  apply run_wp. unfold compute, plan_goal.
  destruct Hik as [tip Hnone Htips|ik_msg tip Hsome Hid Htips Hknown|ik_msg Hsome Hid Hknown].
  - assert (get_tip jmg = Some tip) as Htip by (unfold get_tip; by rewrite Htips).
    wp_go. rewrite Hgoal. cbn [getPoseGoal getPointGoal any_cast_PoseStamped any_cast_PointStamped].
    wp_go.
    destruct (getRigidlyConnectedParentLinkModel _ _); wp_go;
      [apply wp_store_result_markers|]; cbn; by rewrite <- app_assoc.
  - assert (get_tip jmg = Some tip) as Htip by (unfold get_tip; by rewrite Htips).
    wp_go. rewrite Hgoal. cbn [getPoseGoal getPointGoal any_cast_PoseStamped any_cast_PointStamped].
    wp_go.
    destruct (getRigidlyConnectedParentLinkModel _ _); wp_go;
      [apply wp_store_result_markers|]; cbn; by rewrite <- app_assoc.
  - wp_go. rewrite Hgoal. cbn [getPoseGoal getPointGoal any_cast_PoseStamped any_cast_PointStamped].
    wp_go.
    destruct (getRigidlyConnectedParentLinkModel _ _); wp_go;
      [apply wp_store_result_markers|]; cbn; by rewrite <- app_assoc.
Qed.

Lemma joint_goal_never_falls_through (goal : any R) jmg state :
  joint_space_goal goal = true ->
  (run (getJointStateGoal goal jmg) state).1 <> Returned false.
Proof.
  destruct goal as [|n|msg|joints| | |]; try done; intros _.
  - rewrite named_pose. by destruct (default_states jmg !! n).
  - destruct (moveit_msgs.is_diff msg) eqn:Hd.
    + rewrite robot_state_diff by done. destruct (first_rejected jmg _); [done|].
      rewrite conversion_run.
      by destruct (conversion_outcome msg state) as [->|(name & _ & _ & ->)].
    + by rewrite robot_state_not_diff.
  - rewrite joint_map_outcome.
    destruct (first_unwritable jmg _); [|done]. by destruct (bool_decide _).
Qed.

(* an exception of getJointStateGoal leaves compute *)
Lemma compute_propagates_exit stage dir m jmg o state' :
  (forall b, o <> Returned b) ->
  getJointModelGroup (getRobotModel (state_scene m)) (group stage) = Some jmg ->
  run (getJointStateGoal (goal stage) jmg) (getCurrentState (state_scene m)) = (o, state') ->
  run (compute stage dir) m =
    (o,
     {| state_scene := state_scene m;
        scene := {| robot_state_ := Some state' |};
        solution := solution m;
        requests := requests m |}).
Proof.
  intros Hne Hgroup Hexit.
  assert (empty (goal stage) = false) as Hempty.
  { destruct (goal stage); try done. unfold run in Hexit. simplify_eq/=. by destruct (Hne false). }
  assert (call (getJointStateGoal (goal stage) jmg) (getCurrentState (state_scene m)) =
          (inr o, state')) as Hcall.
  { unfold run in Hexit. unfold call.
    destruct (getJointStateGoal _ _ _) as [[b|[b| | |]] s']; simplify_eq; try done;
      by destruct (Hne b). }
  apply run_wp. unfold compute, plan_goal. wp_go. by rewrite Hcall.
Qed.

Lemma compute_propagates_exception stage dir m jmg e state' :
  getJointModelGroup (getRobotModel (state_scene m)) (group stage) = Some jmg ->
  run (getJointStateGoal (goal stage) jmg) (getCurrentState (state_scene m)) = (Thrown e, state') ->
  run (compute stage dir) m =
    (Thrown e,
     {| state_scene := state_scene m;
        scene := {| robot_state_ := Some state' |};
        solution := solution m;
        requests := requests m |}).
Proof. by apply compute_propagates_exit. Qed.






(** C10, as amended.  setGoal with a joint map stores a RobotState message
    that is a diff, lists the keys of the map as joint names and its values
    as positions, in the order of the map, and names no multi-DOF joint.
    The goal is therefore read by the RobotState interpretation and not as a
    joint map.  The result is true exactly when every key is a joint of the
    group and a variable of the robot model, and the entries of the map are
    then written to the state.  Otherwise the first key outside the group is
    reported by InitStageException, with the state untouched; when there is
    none, the exception of MoveIt for the first key that is not a variable
    leaves the function. *)
Theorem setGoal_joint_map_is_diff_state (stage : MoveTo R Constraints)
    (joints : list (string * R)) jmg state :
  let msg :=
    {| moveit_msgs.joint_state :=
         {| moveit_msgs.name := List.map fst joints;
            moveit_msgs.position := List.map snd joints |};
       moveit_msgs.multi_dof_joint_state :=
         {| moveit_msgs.joint_names := []; moveit_msgs.transforms := [] |};
       moveit_msgs.is_diff := true |} in
  let result := run (getJointStateGoal (goal (setGoal joints stage)) jmg) state in
  goal (setGoal joints stage) = any_RobotState msg /\
  any_cast_string (goal (setGoal joints stage)) = None /\
  any_cast_joint_map (goal (setGoal joints stage)) = None /\
  (result.1 = Returned true <->
   Forall (fun joint => joint.1 ∈ getJointModelNames jmg /\ isVariable joint.1 = true) joints) /\
  (result.1 = Returned true -> result.2 = write_joints joints state) /\
  (forall name, first_rejected jmg (List.map fst joints) = Some name ->
     result = (Thrown {| what := not_part_of_group name jmg |}, state)) /\
  (first_rejected jmg (List.map fst joints) = None ->
   forall name, first_unknown_variable (List.map fst joints) = Some name ->
     result.1 = Raised {| unknown_variable := name |}).
Proof.
  intros msg result. split; [done|]. split; [done|]. split; [done|].
  assert (result =
    match first_rejected jmg (List.map fst joints) with
    | Some name => (Thrown {| what := not_part_of_group name jmg |}, state)
    | None =>
        match first_unknown_variable (List.map fst joints) with
        | Some name =>
            (Raised {| unknown_variable := name |},
             (for_each joints (fun joint => setVariablePosition joint.1 joint.2) state).2)
        | None => (Returned true, write_joints joints state)
        end
    end) as Hrun.
  { subst result. change (goal (setGoal joints stage)) with (any_RobotState (joint_map_msg joints)).
    rewrite robot_state_diff by done. cbn [joint_map_msg moveit_msgs.joint_state
      moveit_msgs.multi_dof_joint_state moveit_msgs.name moveit_msgs.joint_names].
    rewrite app_nil_r. destruct (first_rejected jmg _); [done|].
    change {| moveit_msgs.joint_state := _; moveit_msgs.multi_dof_joint_state := _;
              moveit_msgs.is_diff := true |} with (joint_map_msg joints).
    rewrite conversion_run, joint_map_msg_conversion.
    pose proof (first_unknown_variable_split joints) as Hsplit.
    destruct (first_unknown_variable _) as [k|].
    - destruct Hsplit as (l & v & rest & -> & Hl & Hk).
      by rewrite for_each_write_unknown.
    - pose proof (for_each_write_variables [] state Hsplit) as Hfe.
      rewrite app_nil_r in Hfe. by rewrite Hfe. }
  assert (first_rejected jmg (List.map fst joints) = None /\
          first_unknown_variable (List.map fst joints) = None <->
          Forall (fun joint => joint.1 ∈ getJointModelNames jmg /\ isVariable joint.1 = true)
            joints) as Hall.
  { rewrite first_rejected_none, first_unknown_variable_none, Forall_and.
    by rewrite !(Forall_fmap fst). }
  rewrite Hrun. split; [|split; [|split]].
  - rewrite <- Hall.
    destruct (first_rejected jmg _); [cbn; split; [done|by intros [? _]]|].
    destruct (first_unknown_variable _); cbn; [split; [done|by intros [_ ?]]|done].
  - destruct (first_rejected jmg _); [done|]. by destruct (first_unknown_variable _).
  - by intros name ->.
  - by intros -> name ->.
Qed.

(** ** Further properties of the stage *)

Lemma wp_eq {S A} (c : M S A) (x : (A + outcome) * S) s :
  wp c (fun r s' => (r, s') = x) s -> c s = x.
Proof. unfold wp. by destruct (c s). Qed.

(* the first part of compute for a goal of a joint-space kind *)
Lemma plan_goal_joint stage m :
  joint_space_goal (goal stage) = true ->
  plan_goal stage m =
  match getJointModelGroup (getRobotModel (state_scene m)) (group stage) with
  | None =>
      (inr (Returned false),
       {| state_scene := state_scene m; scene := {| robot_state_ := None |};
          solution := markAsFailure ("invalid joint model group: " +:+ group stage) (solution m);
          requests := requests m |})
  | Some jmg =>
      let r := call (getJointStateGoal (goal stage) jmg) (getCurrentState (state_scene m)) in
      let m0 := {| state_scene := state_scene m; scene := {| robot_state_ := Some r.2 |};
                   solution := solution m; requests := requests m |} in
      match r.1 with
      | inl _ =>
          let request :=
            JointRequest (state_scene m)
              {| getRobotModel := getRobotModel (state_scene m);
                 getPlanningFrame := getPlanningFrame (state_scene m);
                 getCurrentState := r.2 |}
              jmg (timeout stage) (path_constraints stage) in
          (inl (plan (planner_ stage) request), add_request request m0)
      | inr o => (inr o, m0)
      end
  end.
Proof.
  intros Hjoint.
  assert (empty (goal stage) = false) as Hempty by (by destruct (goal stage)).
  apply wp_eq. unfold plan_goal.
  destruct (getJointModelGroup _ _) as [jmg|] eqn:Hgroup; [|by wp_go].
  wp_go. cbv zeta.
  pose proof (joint_goal_never_falls_through (goal stage) jmg
                (getCurrentState (state_scene m)) Hjoint) as Hne.
  unfold run in Hne. unfold call.
  destruct (getJointStateGoal _ _ _) as [[[]|[[]| | |]] w]; cbn [fst snd] in *;
    try done; by wp_go.
Qed.

(* the first part of compute for a Cartesian goal with a resolved ik frame *)
Lemma plan_goal_cartesian stage m jmg frame_id pose target :
  let state := getCurrentState (state_scene m) in
  let ik_pose_world := frameTransform state frame_id *i fromMsg_Pose pose in
  getJointModelGroup (getRobotModel (state_scene m)) (group stage) = Some jmg ->
  ik_frame_resolves stage jmg state frame_id pose ->
  getPoseGoal (goal stage) (state_scene m) = Some target \/
    getPointGoal (goal stage) ik_pose_world (state_scene m) = Some target ->
  plan_goal stage m =
  match getRigidlyConnectedParentLinkModel state frame_id with
  | None => (inr (Fault "parent->getName()"), with_frames m target ik_pose_world)
  | Some parent =>
      let request :=
        CartesianRequest (state_scene m) parent
          (target *i Eigen.inverse ik_pose_world *i frameTransform state (link_name parent))
          jmg (timeout stage) (path_constraints stage) in
      (inl (plan (planner_ stage) request),
       add_request request (with_frames m target ik_pose_world))
  end.
Proof.
  intros state ik_pose_world Hgroup Hik Htarget.
  destruct (cartesian_goal_not_joint _ _ _ Htarget) as [Hempty Hjoint].
  set (sc := {| getRobotModel := getRobotModel (state_scene m);
                getPlanningFrame := getPlanningFrame (state_scene m);
                getCurrentState := state |}).
  assert (getPoseGoal (goal stage) sc = Some target \/
          getPoseGoal (goal stage) sc = None /\
          getPointGoal (goal stage) ik_pose_world sc = Some target) as Hsc.
  { rewrite (getPoseGoal_state _ sc (state_scene m)) by done.
    rewrite (getPointGoal_state _ _ sc (state_scene m)) by done.
    destruct Htarget as [Ht|Ht]; [by left|]. right. split; [|done].
    by destruct (goal stage). }
  clear Htarget. apply wp_eq. unfold with_frames.
  subst sc ik_pose_world state. unfold plan_goal.
  destruct Hik as [tip Hnone Htips|msg tip Hsome Hid Htips Hknown|msg Hsome Hid Hknown].
  - assert (get_tip jmg = Some tip) as Htip by (unfold get_tip; by rewrite Htips).
    destruct Hsc as [Hpose|[Hpose Hpoint]]; wp_go;
      destruct (getRigidlyConnectedParentLinkModel _ _); by wp_go.
  - assert (get_tip jmg = Some tip) as Htip by (unfold get_tip; by rewrite Htips).
    destruct Hsc as [Hpose|[Hpose Hpoint]]; wp_go;
      destruct (getRigidlyConnectedParentLinkModel _ _); by wp_go.
  - destruct Hsc as [Hpose|[Hpose Hpoint]]; wp_go;
      destruct (getRigidlyConnectedParentLinkModel _ _); by wp_go.
Qed.

(** X1.  With an existing group and no goal set, compute marks the solution
    as failed with the message "undefined goal" and returns false: the
    planner is not called and the diff scene gets no robot state of its
    own. *)
Theorem undefined_goal_fails stage dir m jmg :
  getJointModelGroup (getRobotModel (state_scene m)) (group stage) = Some jmg ->
  empty (goal stage) = true ->
  run (compute stage dir) m =
    (Returned false,
     {| state_scene := state_scene m;
        scene := {| robot_state_ := None |};
        solution := markAsFailure "undefined goal" (solution m);
        requests := requests m |}).
Proof.
  intros Hgroup Hempty. apply run_wp. unfold compute, plan_goal. by wp_go.
Qed.

(** X2.  A declared ik frame with an empty frame id needs the unique tip of
    the group: when the group has no tip or several, a goal of no
    joint-space kind fails with the message "frame_id of ik_frame is empty
    and no unique group tip was found", before any planner call and without
    a marker. *)
Theorem empty_frame_id_needs_unique_tip stage dir m jmg ik_pose_msg :
  getJointModelGroup (getRobotModel (state_scene m)) (group stage) = Some jmg ->
  empty (goal stage) = false ->
  joint_space_goal (goal stage) = false ->
  ik_frame stage = Some ik_pose_msg ->
  geometry_msgs.pose_frame_id ik_pose_msg = "" ->
  length (getEndEffectorTips jmg) <> 1 ->
  run (compute stage dir) m =
    (Returned false,
     {| state_scene := state_scene m;
        scene := {| robot_state_ := Some (getCurrentState (state_scene m)) |};
        solution :=
          markAsFailure "frame_id of ik_frame is empty and no unique group tip was found"
            (solution m);
        requests := requests m |}).
Proof.
  intros Hgroup Hempty Hgoal Hik Hid Htips.
  assert (get_tip jmg = None) as Htip.
  { unfold get_tip. by destruct (getEndEffectorTips jmg) as [|? []]. }
  apply run_wp. unfold compute, plan_goal. by wp_go.
Qed.

(** X3.  A declared ik frame whose frame, given or filled in from the unique
    tip of the group, is not known to the scene makes a goal of no
    joint-space kind fail with the message "ik_frame specified in unknown
    frame '...'" around the printed frame message, before any planner call
    and without a marker. *)
Theorem unknown_ik_frame_fails stage dir m jmg ik_pose_msg frame_id :
  getJointModelGroup (getRobotModel (state_scene m)) (group stage) = Some jmg ->
  empty (goal stage) = false ->
  joint_space_goal (goal stage) = false ->
  ik_frame stage = Some ik_pose_msg ->
  (geometry_msgs.pose_frame_id ik_pose_msg = frame_id /\ frame_id <> "") \/
    (geometry_msgs.pose_frame_id ik_pose_msg = "" /\ getEndEffectorTips jmg = [frame_id]) ->
  knowsFrame (getCurrentState (state_scene m)) frame_id = false ->
  run (compute stage dir) m =
    (Returned false,
     {| state_scene := state_scene m;
        scene := {| robot_state_ := Some (getCurrentState (state_scene m)) |};
        solution :=
          markAsFailure
            ("ik_frame specified in unknown frame '" +:+
             print_PoseStamped
               {| geometry_msgs.pose_frame_id := frame_id;
                  geometry_msgs.pose := geometry_msgs.pose ik_pose_msg |} +:+ "'")
            (solution m);
        requests := requests m |}).
Proof.
  intros Hgroup Hempty Hgoal Hik Hid Hknown.
  apply run_wp. unfold compute, plan_goal.
  destruct Hid as [[Hid Hne]|[Hid Htips]].
  - subst frame_id. by wp_go.
  - assert (get_tip jmg = Some frame_id) as Htip by (unfold get_tip; by rewrite Htips).
    by wp_go.
Qed.

(** X4.  With a resolved ik frame, a goal whose type is none of the five the
    stage reads fails with the message "invalid goal type: " followed by the
    name of the type, before any planner call and without a marker. *)
Theorem invalid_goal_type_fails stage dir m jmg frame_id pose type_name :
  getJointModelGroup (getRobotModel (state_scene m)) (group stage) = Some jmg ->
  goal stage = any_other type_name ->
  ik_frame_resolves stage jmg (getCurrentState (state_scene m)) frame_id pose ->
  run (compute stage dir) m =
    (Returned false,
     {| state_scene := state_scene m;
        scene := {| robot_state_ := Some (getCurrentState (state_scene m)) |};
        solution := markAsFailure ("invalid goal type: " +:+ type_name) (solution m);
        requests := requests m |}).
Proof.
  intros Hgroup Hgoal Hik.
  assert (empty (goal stage) = false) as Hempty by (by rewrite Hgoal).
  assert (joint_space_goal (goal stage) = false) as Hjoint by (by rewrite Hgoal).
  apply run_wp. unfold compute, plan_goal.
  destruct Hik as [tip Hnone Htips|msg tip Hsome Hid Htips Hknown|msg Hsome Hid Hknown].
  - assert (get_tip jmg = Some tip) as Htip by (unfold get_tip; by rewrite Htips).
    wp_go. rewrite Hgoal. by wp_go.
  - assert (get_tip jmg = Some tip) as Htip by (unfold get_tip; by rewrite Htips).
    wp_go. rewrite Hgoal. by wp_go.
  - wp_go. rewrite Hgoal. by wp_go.
Qed.

Lemma run_store_result_markers stage dir planned m1 :
  markers (solution (run (store_result stage dir planned) m1).2) = markers (solution m1).
Proof.
  rewrite <- (store_result_markers stage dir planned m1). unfold run.
  by destruct (store_result stage dir planned m1) as [[b|o] m2].
Qed.

Lemma run_compute_markers stage dir m planned m1 :
  plan_goal stage m = (inl planned, m1) ->
  markers (solution (run (compute stage dir) m).2) = markers (solution m1).
Proof.
  intros Hplan. rewrite run_compute_eq, Hplan.
  rewrite <- (store_result_markers stage dir planned m1). unfold run.
  by destruct (store_result stage dir planned m1) as [[b|o] m2].
Qed.

(** X5.  For a pose goal the target is the pose of the goal moved by the
    transform of the frame of the goal; it does not depend on the ik frame.
    With a resolved ik frame compute appends exactly two markers to the
    solution, "target frame" with this target and "ik frame" with the world
    pose of the ik frame, whatever the planner answers. *)
Theorem pose_goal_target stage dir m jmg frame_id pose
    (msg : geometry_msgs.PoseStamped R) :
  let state := getCurrentState (state_scene m) in
  let ik_pose_world := frameTransform state frame_id *i fromMsg_Pose pose in
  let target :=
    frameTransform state (geometry_msgs.pose_frame_id msg)
    *i fromMsg_Pose (geometry_msgs.pose msg) in
  getJointModelGroup (getRobotModel (state_scene m)) (group stage) = Some jmg ->
  goal stage = any_PoseStamped msg ->
  ik_frame_resolves stage jmg state frame_id pose ->
  getPoseGoal (goal stage) (state_scene m) = Some target /\
  markers (solution (run (compute stage dir) m).2) =
    markers (solution m) ++
      [ {| marker_frame_id := getPlanningFrame (state_scene m);
           marker_pose := toMsg target; marker_ns := "target frame" |};
        {| marker_frame_id := getPlanningFrame (state_scene m);
           marker_pose := toMsg ik_pose_world; marker_ns := "ik frame" |} ].
Proof.
  intros state ik_pose_world target Hgroup Hgoal Hik.
  assert (getPoseGoal (goal stage) (state_scene m) = Some target) as Htarget
    by (by rewrite Hgoal).
  split; [done|].
  pose proof (@plan_goal_cartesian stage m jmg frame_id pose target Hgroup Hik
                (or_introl Htarget)) as Hplan.
  fold state ik_pose_world in Hplan.
  destruct (getRigidlyConnectedParentLinkModel state frame_id) as [parent|].
  - rewrite (@run_compute_markers stage dir m _ _ Hplan). cbn. by rewrite <- app_assoc.
  - rewrite run_compute_eq, Hplan. cbn. by rewrite <- app_assoc.
Qed.

(** X6.  When failures are not stored and the planner leaves no trajectory,
    compute returns false and stores nothing: the memory is the one the
    planner call left, the solution keeps its trajectory, its failure flag
    and its comment. *)
Theorem no_trajectory_without_store_failures stage dir m success m1 :
  storeFailures stage = false ->
  plan_goal stage m = (inl (success, None), m1) ->
  run (compute stage dir) m = (Returned false, m1) /\
  trajectory (solution m1) = trajectory (solution m) /\
  isFailure (solution m1) = isFailure (solution m) /\
  comment (solution m1) = comment (solution m).
Proof.
  intros Hstore Hplan.
  destruct (plan_goal_returns _ _ Hplan)
    as (jmg & r & m0 & _ & _ & _ & -> & _ & _ & _ & Ht & Hf & Hc).
  split; [|done].
  rewrite run_compute_eq, Hplan. unfold run. rewrite store_result_eq.
  cbn [fst snd]. rewrite Hstore. by rewrite andb_false_r.
Qed.

(** X7.  A trajectory left by the planner is stored as it is, reversed in
    the backward direction, also when the planner reports failure: the
    fallback is not used.  The solution becomes a failure exactly when the
    planner reported failure or the solution was one already, its comment is
    kept, and the state of the diff scene is the last waypoint of the
    planner's trajectory. *)
Theorem planner_trajectory_stored stage dir m success t last m1 :
  plan_goal stage m = (inl (success, Some t), m1) ->
  getLastWayPoint t = Some last ->
  exists m',
    run (compute stage dir) m = (Returned true, m') /\
    trajectory (solution m') =
      Some match dir with FORWARD => t | BACKWARD => reverse t end /\
    isFailure (solution m') = negb success || isFailure (solution m) /\
    comment (solution m') = comment (solution m) /\
    robot_state_ (scene m') = Some last /\
    requests m' = requests m1.
Proof.
  intros Hplan Hlast.
  destruct (plan_goal_returns _ _ Hplan)
    as (jmg & r & m0 & _ & _ & _ & -> & _ & _ & _ & _ & Hf & Hc).
  rewrite run_compute_eq, Hplan. unfold run. rewrite store_result_eq.
  cbn [fst snd]. replace (bool_decide (Some t = None)) with false by done.
  cbn [andb]. rewrite Hlast.
  eexists. split; [reflexivity|]. destruct success; cbn.
  - by rewrite Hf, Hc.
  - rewrite Hc. by repeat split.
Qed.

(** X8.  A trajectory without waypoints left by the planner makes compute
    fault at getLastWayPoint(), whatever the planner reports and whether
    failures are stored or not: nothing is stored in the solution. *)
Theorem empty_trajectory_faults stage dir m success t m1 :
  plan_goal stage m = (inl (success, Some t), m1) ->
  waypoints t = [] ->
  run (compute stage dir) m = (Fault "getLastWayPoint()", m1).
Proof.
  intros Hplan Hempty.
  rewrite run_compute_eq, Hplan. unfold run. rewrite store_result_eq.
  cbn [fst snd]. replace (bool_decide (Some t = None)) with false by done.
  cbn [andb]. unfold getLastWayPoint. by rewrite Hempty.
Qed.

(** X9.  An invocation calls the planner at most once, after the requests
    that were there.  The request passes on the scene of the interface
    state as the start, the group named by the property "group", and the
    timeout and the path constraints of the stage as they are.  An
    invocation that returns true has called the planner. *)
Theorem planner_called_at_most_once stage dir m :
  let result := run (compute stage dir) m in
  (requests result.2 = requests m \/
   exists r, requests result.2 = requests m ++ [r] /\
     request_from r = state_scene m /\
     getJointModelGroup (getRobotModel (state_scene m)) (group stage) = Some (request_group r) /\
     request_timeout r = timeout stage /\
     request_constraints r = path_constraints stage) /\
  (result.1 = Returned true -> requests result.2 <> requests m).
Proof.
  cbv zeta. rewrite compute_requests, run_compute_eq.
  destruct (plan_goal stage m) as [[planned|o] m1] eqn:Hplan.
  - destruct (plan_goal_returns _ _ Hplan)
      as (jmg & r & m0 & Hjmg & Hshape & _ & -> & _ & Hr & _).
    cbn [snd requests add_request]. rewrite Hr. split.
    + right. exists r. split; [done|]. by destruct Hshape.
    + intros _ Heq. apply (f_equal length) in Heq. rewrite length_app in Heq.
      cbn in Heq. lia.
  - destruct (plan_goal_exits _ _ Hplan) as (Hne & _ & Hr & _).
    cbn [fst snd]. split; [by left|]. intros Ho. by rewrite Ho in Hne.
Qed.




Lemma head_rev {A} (l : list A) : head (rev l) = last l.
Proof. rewrite rev_alt. apply head_reverse. Qed.

(** X12.  Whenever compute returns true the solution holds a trajectory with
    at least one waypoint, and the state of the diff scene handed back is
    the end of that trajectory in the direction of the stage: its last
    waypoint in the forward direction, its first in the backward
    direction. *)
Theorem returned_scene_continues_trajectory stage dir m :
  (run (compute stage dir) m).1 = Returned true ->
  exists t,
    trajectory (solution (run (compute stage dir) m).2) = Some t /\
    waypoints t <> [] /\
    robot_state_ (scene (run (compute stage dir) m).2) =
      match dir with
      | FORWARD => last (waypoints t)
      | BACKWARD => head (waypoints t)
      end.
Proof.
  rewrite run_compute_eq.
  destruct (plan_goal stage m) as [[planned|o] m1] eqn:Hplan.
  2:{ intros Ho. simpl in Ho. by destruct (plan_goal_exits _ _ Hplan) as [Hne _]. }
  unfold run. rewrite store_result_eq. cbv zeta.
  destruct (if bool_decide (planned.2 = None) && storeFailures stage then _ else _) as [t|];
    [|done].
  destruct (getLastWayPoint t) as [w|] eqn:Hlast; [|done].
  intros _. unfold getLastWayPoint in Hlast.
  assert (waypoints t <> []) as Hne by (intros Hnil; by rewrite Hnil in Hlast).
  exists match dir with FORWARD => t | BACKWARD => reverse t end.
  split; [by destruct planned.1|]. destruct dir; cbn.
  - split; [done|]. by destruct planned.1.
  - split.
    + intros Hnil. apply Hne. apply (f_equal (@rev _)) in Hnil.
      by rewrite rev_involutive in Hnil.
    + rewrite head_rev. by destruct planned.1.
Qed.

(** X13.  A goal of a joint-space kind never consults the ik frame: after
    setIKFrame, with any pose and any link, compute runs exactly as without
    it. *)
Theorem joint_goal_ignores_ik_frame stage dir m (pose : Isometry3d R) link :
  joint_space_goal (goal stage) = true ->
  run (compute (setIKFrame pose link stage) dir) m = run (compute stage dir) m.
Proof.
  intros Hjoint. rewrite !run_compute_eq.
  rewrite (@plan_goal_joint (setIKFrame pose link stage) m) by done.
  rewrite (@plan_goal_joint stage m) by done.
  reflexivity.
Qed.

(** X14.  The direction matters only for the trajectory that is stored:
    the forward and the backward invocation from the same memory end with
    the same outcome, the same diff scene, the same planner requests and,
    in the solution, the same failure flag, comment and markers. *)
Theorem direction_only_changes_trajectory stage m :
  let forward := run (compute stage FORWARD) m in
  let backward := run (compute stage BACKWARD) m in
  backward.1 = forward.1 /\
  scene backward.2 = scene forward.2 /\
  requests backward.2 = requests forward.2 /\
  isFailure (solution backward.2) = isFailure (solution forward.2) /\
  comment (solution backward.2) = comment (solution forward.2) /\
  markers (solution backward.2) = markers (solution forward.2).
Proof.
  cbv zeta. rewrite !run_compute_eq.
  destruct (plan_goal stage m) as [[planned|o] m1]; [|done].
  unfold run. rewrite !store_result_eq. cbv zeta.
  destruct (if bool_decide (planned.2 = None) && storeFailures stage then _ else _) as [t|];
    [|done].
  destruct (getLastWayPoint t); [|done]. by destruct planned.1.
Qed.

(** X15.  An invocation with a goal of a joint-space kind appends no marker
    to the solution. *)
Theorem joint_goal_appends_no_marker stage dir m :
  joint_space_goal (goal stage) = true ->
  markers (solution (run (compute stage dir) m).2) = markers (solution m).
Proof.
  intros Hjoint. rewrite run_compute_eq, plan_goal_joint by done.
  destruct (getJointModelGroup _ _) as [jmg|]; [|done]. cbv zeta.
  destruct (call _ _).1 as [b|o]; [|done].
  by rewrite run_store_result_markers.
Qed.

(** X16.  When the frame of the resolved ik frame has no rigidly connected
    parent link (the pointer is null), compute faults where it reads the
    name of the link: both markers have been appended, the planner has not
    been called, and no trajectory is stored. *)
Theorem missing_parent_link_faults stage dir m jmg frame_id pose target :
  let state := getCurrentState (state_scene m) in
  let ik_pose_world := frameTransform state frame_id *i fromMsg_Pose pose in
  getJointModelGroup (getRobotModel (state_scene m)) (group stage) = Some jmg ->
  ik_frame_resolves stage jmg state frame_id pose ->
  getPoseGoal (goal stage) (state_scene m) = Some target \/
    getPointGoal (goal stage) ik_pose_world (state_scene m) = Some target ->
  getRigidlyConnectedParentLinkModel state frame_id = None ->
  run (compute stage dir) m =
    (Fault "parent->getName()", with_frames m target ik_pose_world).
Proof.
  intros state ik_pose_world Hgroup Hik Htarget Hparent.
  rewrite run_compute_eq.
  rewrite (@plan_goal_cartesian stage m jmg frame_id pose target Hgroup Hik Htarget).
  fold state. by rewrite Hparent.
Qed.

(** X17.  After setIKFrame the declared frame is the ik frame, whatever the
    tips of the group: a link that is not empty is used as it is, an empty
    link stands for the unique tip of the group, and in both cases the
    offset is the declared pose as tf2::toMsg wrote it.  For a Cartesian goal
    the marker "ik frame" shows that pose: the transform of the frame times
    the declared offset. *)
Theorem declared_ik_frame_is_used stage dir m jmg (pose : Isometry3d R) link frame_id target :
  let state := getCurrentState (state_scene m) in
  let ik_pose_world := frameTransform state frame_id *i fromMsg_Pose (toMsg pose) in
  getJointModelGroup (getRobotModel (state_scene m)) (group stage) = Some jmg ->
  (link = frame_id /\ frame_id <> "") \/ (link = "" /\ getEndEffectorTips jmg = [frame_id]) ->
  knowsFrame state frame_id = true ->
  getPoseGoal (goal stage) (state_scene m) = Some target \/
    getPointGoal (goal stage) ik_pose_world (state_scene m) = Some target ->
  markers (solution (run (compute (setIKFrame pose link stage) dir) m).2) =
    markers (solution m) ++
      [ {| marker_frame_id := getPlanningFrame (state_scene m);
           marker_pose := toMsg target; marker_ns := "target frame" |};
        {| marker_frame_id := getPlanningFrame (state_scene m);
           marker_pose := toMsg ik_pose_world; marker_ns := "ik frame" |} ].
Proof.
  intros state ik_pose_world Hgroup Hlink Hknown Htarget.
  assert (ik_frame_resolves (setIKFrame pose link stage) jmg state frame_id (toMsg pose)) as Hik.
  { destruct Hlink as [[-> Hne]|[-> Htips]].
    - by apply (@resolves_given_frame _ _ _ _ (setIKFrame pose frame_id stage) jmg state
                  {| geometry_msgs.pose_frame_id := frame_id;
                     geometry_msgs.pose := toMsg pose |}).
    - by apply (@resolves_empty_frame_id _ _ _ _ (setIKFrame pose "" stage) jmg state
                  {| geometry_msgs.pose_frame_id := "";
                     geometry_msgs.pose := toMsg pose |}). }
  pose proof (@plan_goal_cartesian (setIKFrame pose link stage) m jmg frame_id (toMsg pose)
                target Hgroup Hik Htarget) as Hplan.
  fold state ik_pose_world in Hplan.
  destruct (getRigidlyConnectedParentLinkModel state frame_id) as [parent|].
  - rewrite (@run_compute_markers (setIKFrame pose link stage) dir m _ _ Hplan).
    cbn. by rewrite <- app_assoc.
  - rewrite run_compute_eq, Hplan. cbn. by rewrite <- app_assoc.
Qed.

(** X18.  When a joint map names a joint outside the group, after entries
    that are joints of the group and variables of the robot model, the
    exception of getJointStateGoal leaves compute as it is: the solution is
    neither marked nor commented, the planner is not called, and the diff
    scene keeps the state in which the entries before the offending key were
    written. *)
Theorem joint_map_exception_leaves_compute stage dir m jmg
    (l rest : list (string * R)) k v :
  getJointModelGroup (getRobotModel (state_scene m)) (group stage) = Some jmg ->
  goal stage = any_joint_map (l ++ (k, v) :: rest) ->
  Forall (fun joint => joint.1 ∈ getJointModelNames jmg) l ->
  Forall (fun joint => isVariable joint.1 = true) l ->
  k ∉ getJointModelNames jmg ->
  run (compute stage dir) m =
    (Thrown {| what := not_part_of_group k jmg |},
     {| state_scene := state_scene m;
        scene := {| robot_state_ := Some (write_joints l (getCurrentState (state_scene m))) |};
        solution := solution m;
        requests := requests m |}).
Proof.
  intros Hgroup Hgoal Hl Hvar Hk.
  apply (@compute_propagates_exception stage dir m jmg); [done|].
  rewrite Hgoal. apply joint_map_rejected; [by apply Forall_and|done].
Qed.

(** X19.  When getJointStateGoal accepts the goal, compute sends the planner
    exactly one request, a joint-space one: from the scene of the interface
    state to the diff scene, whose current state is the start state with the
    goal applied. *)
Theorem joint_request_targets_goal_state stage dir m jmg state' :
  getJointModelGroup (getRobotModel (state_scene m)) (group stage) = Some jmg ->
  run (getJointStateGoal (goal stage) jmg) (getCurrentState (state_scene m)) =
    (Returned true, state') ->
  requests (run (compute stage dir) m).2 =
  requests m ++
    [JointRequest (state_scene m)
       {| getRobotModel := getRobotModel (state_scene m);
          getPlanningFrame := getPlanningFrame (state_scene m);
          getCurrentState := state' |}
       jmg (timeout stage) (path_constraints stage)].
Proof.
  intros Hgroup Hgoal.
  assert (joint_space_goal (goal stage) = true) as Hjoint.
  { destruct (joint_space_goal (goal stage)) eqn:Hj; [done|].
    unfold run in Hgoal. by rewrite no_joint_goal in Hgoal. }
  assert (call (getJointStateGoal (goal stage) jmg) (getCurrentState (state_scene m)) =
          (inl true, state')) as Hcall.
  { unfold run in Hgoal. unfold call.
    destruct (getJointStateGoal _ _ _) as [[b|[b| | |]] s']; by simplify_eq. }
  rewrite compute_requests, plan_goal_joint, Hgroup by done.
  cbv zeta. by rewrite Hcall.
Qed.

(** X20.  For a goal of no joint-space kind the working configuration is the
    start configuration: when the planner fails without a trajectory and
    failures are stored, both waypoints of the stored trajectory are the
    start configuration, in either direction, and the diff scene ends in
    that configuration. *)
Theorem cartesian_fallback_stays_at_start stage dir m m1 :
  storeFailures stage = true ->
  joint_space_goal (goal stage) = false ->
  plan_goal stage m = (inl (false, None), m1) ->
  let start := getCurrentState (state_scene m) in
  exists m',
    run (compute stage dir) m = (Returned true, m') /\
    trajectory (solution m') =
      Some {| waypoints := [start; start]; duration_from_previous := [R0; R1] |} /\
    isFailure (solution m') = true /\
    robot_state_ (scene m') = Some start.
Proof.
  intros Hstore Hjoint Hplan start.
  destruct (plan_goal_returns _ _ Hplan)
    as (jmg & r & m0 & Hjmg & _ & _ & -> & Hs & _ & Hw & _).
  assert (working_state stage jmg m = start) as Hstart.
  { unfold working_state. by rewrite call_no_joint_goal. }
  rewrite run_compute_eq, Hplan. unfold run. rewrite store_result_eq.
  cbn [fst snd]. rewrite Hstore.
  replace (bool_decide (None = None)) with true by done. cbn [andb].
  unfold current_state. cbn [scene add_request state_scene]. rewrite Hw, Hs, Hstart.
  fold start. eexists. split; [reflexivity|]. cbn. by destruct dir.
Qed.
End Properties.

(** * Concrete runs *)

Section Runs.
Import Demo.

Ltac by_computation :=
  lazymatch goal with |- ?P => refine (@bool_decide_unpack P _ _) end; vm_compute; exact I.

(** Witness of C1: the backward run of a stage whose planner finds nothing. *)
Lemma failure_fallback_witness :
  storeFailures fallback_stage = true /\
  plan_goal fallback_stage memory =
    (inl (false, None), (plan_goal fallback_stage memory).2) /\
  exists m',
    run (compute fallback_stage BACKWARD) memory = (Returned true, m') /\
    trajectory (solution m') = Some (reverse (fallback_trajectory start_state goal_state)) /\
    isFailure (solution m') = true /\
    comment (solution m') = "".
Proof.
  split; [reflexivity|]. split; [vm_compute; reflexivity|].
  destruct (@failure_fallback Z unit _ _ fallback_stage BACKWARD memory
              (plan_goal fallback_stage memory).2)
    as (m' & Hrun & Htraj & _ & _ & Hfail & Hcomment & _).
  - reflexivity.
  - vm_compute. reflexivity.
  - exists m'. split; [exact Hrun|]. split; [|split; [exact Hfail|exact Hcomment]].
    rewrite Htraj. vm_compute. reflexivity.
Defined.

(** Counterexample to C1 as stated: the planner gives no trajectory and
    failures are stored, yet in the backward direction the first stored
    waypoint is the working configuration, not the start configuration, and
    the solution carries no message. *)
Lemma failure_fallback_counterexample :
  storeFailures fallback_stage = true /\
  (forall r, plan (planner_ fallback_stage) r = (false, None)) /\
  let m' := (run (compute fallback_stage BACKWARD) memory).2 in
  ~ (exists t working,
       trajectory (solution m') = Some t /\
       waypoints t = [getCurrentState (state_scene memory); working] /\
       duration_from_previous t = [R0; R1] /\
       isFailure (solution m') = true /\
       comment (solution m') <> "") /\
  (exists t, trajectory (solution m') = Some t /\
             waypoints t = [goal_state; start_state] /\ goal_state <> start_state) /\
  comment (solution m') = "".
Proof.
  split; [reflexivity|]. split; [reflexivity|]. cbv zeta.
  assert (comment (solution (run (compute fallback_stage BACKWARD) memory).2) = "") as Hc
    by (vm_compute; reflexivity).
  split; [|split; [|exact Hc]].
  - intros (t & working & _ & _ & _ & _ & Hne). exact (Hne Hc).
  - eexists. split; [vm_compute; reflexivity|]. split; [vm_compute; reflexivity|].
    intros Heq. apply (f_equal (fun s : RobotState Z => s !! "j1")) in Heq.
    vm_compute in Heq. discriminate Heq.
Qed.

(** Witness of C7: a joint-space goal planned in both directions. *)
Lemma time_reversal_witness :
  (run (compute joint_stage FORWARD) memory).1 = Returned true /\
  trajectory (solution (run (compute joint_stage FORWARD) memory).2) =
    Some {| waypoints := [start_state; goal_state]; duration_from_previous := [0; 1]%Z |} /\
  trajectory (solution (run (compute joint_stage BACKWARD) memory).2) =
    Some {| waypoints := [goal_state; start_state]; duration_from_previous := [0; 1]%Z |} /\
  robot_state_ (scene (run (compute joint_stage BACKWARD) memory).2) = Some goal_state.
Proof.
  assert ((run (compute joint_stage FORWARD) memory).1 = Returned true) as Hrun
    by (vm_compute; reflexivity).
  destruct (@time_reversal Z unit _ _ joint_stage memory Hrun)
    as (t & last & Hf & _ & Hb & _ & _ & Hlast & _ & Hscene).
  assert (Some t = Some {| waypoints := [start_state; goal_state];
                           duration_from_previous := [0; 1]%Z |}) as Ht.
  { rewrite <- Hf. vm_compute. reflexivity. }
  injection Ht as ->.
  split; [exact Hrun|]. split; [exact Hf|]. split.
  - rewrite Hb. vm_compute. reflexivity.
  - rewrite Hscene, <- Hlast. vm_compute. reflexivity.
Defined.

(** C3.  In [table_stage] the point goal resolves to a target in the world
    and the declared ik frame, "table", is a frame the scene knows, but no
    link of the robot carries it: there is no rigidly connected parent link.
    compute is left where line 272 reads the name of that link; no request
    reaches the planner and no trajectory is stored. *)
Lemma cartesian_request_without_parent_link :
  let ik_pose_world := frameTransform start_state "table" *i fromMsg_Pose offset_pose in
  ik_frame table_stage = Some offset_in_table /\
  knowsFrameTransform start_scene "table" = true /\
  getPointGoal (goal table_stage) ik_pose_world start_scene = Some point_target /\
  getRigidlyConnectedParentLinkModel start_state "table" = None /\
  (run (compute table_stage FORWARD) memory).1 = Fault "parent->getName()" /\
  requests (run (compute table_stage FORWARD) memory).2 = [] /\
  trajectory (solution (run (compute table_stage FORWARD) memory).2) = None.
Proof. repeat split; vm_compute; reflexivity. Qed.

(** Witness of X21: a point goal for the group "arm", whose tip "tool" is
    carried by "link1". *)
Lemma cartesian_request_rebased_witness :
  requests (run (compute point_stage FORWARD) memory).2 =
  [CartesianRequest start_scene {| link_name := "link1" |} link1_target arm 1%Z tt].
Proof.
  rewrite (@cartesian_request_rebased Z unit _ _ point_stage FORWARD memory arm "tool"
             unit_pose point_target {| link_name := "link1" |}).
  - vm_compute. reflexivity.
  - vm_compute. reflexivity.
  - apply resolves_unique_tip; reflexivity.
  - right. vm_compute. reflexivity.
  - vm_compute. reflexivity.
Defined.

(** Witness of C4: the same point goal; the tool is at (1, 0, 1) with the
    orientation of the world, the point at (0, 3, 1). *)
Lemma point_goal_keeps_orientation_witness :
  getPointGoal point_goal (translation_by 1 0 1) start_scene = Some point_target /\
  markers (solution (run (compute point_stage FORWARD) memory).2) =
    [ {| marker_frame_id := "world"; marker_pose := toMsg point_target;
         marker_ns := "target frame" |};
      {| marker_frame_id := "world"; marker_pose := toMsg (translation_by 1 0 1);
         marker_ns := "ik frame" |} ].
Proof.
  destruct (@point_goal_keeps_orientation Z unit _ _ point_stage FORWARD memory arm "tool"
              unit_pose point_msg) as (_ & target & Htarget & _ & _ & Hmarkers).
  - vm_compute. reflexivity.
  - reflexivity.
  - apply resolves_unique_tip; reflexivity.
  - assert (Some target = Some point_target) as Ht.
    { rewrite <- Htarget. vm_compute. reflexivity. }
    injection Ht as ->.
    split; [vm_compute; reflexivity|]. rewrite Hmarkers. vm_compute. reflexivity.
Defined.

(** Witness of C5: a point goal for a group with two tips. *)
Lemma missing_ik_frame_witness :
  (run (compute point_stage_two_tips FORWARD) memory).1 = Returned false /\
  comment (solution (run (compute point_stage_two_tips FORWARD) memory).2) = "missing ik_frame" /\
  requests (run (compute point_stage_two_tips FORWARD) memory).2 = [].
Proof.
  rewrite (@missing_ik_frame Z unit _ _ point_stage_two_tips FORWARD memory dual).
  - split; [reflexivity|]. split; vm_compute; reflexivity.
  - vm_compute. reflexivity.
  - reflexivity.
  - reflexivity.
  - reflexivity.
  - vm_compute. discriminate.
Defined.

(** Counterexample to C5 as stated: ik_frame is unset and the group has two
    tips, yet a joint-space goal is planned: the planner is called and the
    invocation succeeds.  With a point goal the message is "missing
    ik_frame", for two tips as for none. *)
Lemma missing_ik_frame_counterexample :
  ik_frame joint_stage_two_tips = None /\
  getJointModelGroup robot (group joint_stage_two_tips) = Some dual /\
  length (getEndEffectorTips dual) = 2 /\
  let r := run (compute joint_stage_two_tips FORWARD) memory in
  r.1 = Returned true /\
  isFailure (solution r.2) = false /\
  comment (solution r.2) = "" /\
  length (requests r.2) = 1 /\
  comment (solution (run (compute point_stage_two_tips FORWARD) memory).2) = "missing ik_frame" /\
  comment (solution (run (compute point_stage_no_tip FORWARD) memory).2) = "missing ik_frame".
Proof. repeat split; vm_compute; reflexivity. Qed.


(** Witness of X22: compute for the group "gripper", which the robot does
    not have. *)
Lemma unknown_group_fails_in_compute_witness :
  getJointModelGroup robot (group stage_without_group) = None /\
  (run (compute stage_without_group FORWARD) memory).1 = Returned false /\
  comment (solution (run (compute stage_without_group FORWARD) memory).2) =
    "invalid joint model group: gripper" /\
  requests (run (compute stage_without_group FORWARD) memory).2 = [].
Proof.
  assert (getJointModelGroup (getRobotModel (state_scene memory))
            (group stage_without_group) = None) as Hgroup by (vm_compute; reflexivity).
  split; [exact Hgroup|].
  rewrite (@unknown_group_fails_in_compute Z unit _ _ stage_without_group FORWARD memory Hgroup).
  split; [reflexivity|]. split; vm_compute; reflexivity.
Defined.




(** Witness of C10: both keys are joints of "arm" and variables of the
    model. *)
Lemma setGoal_joint_map_is_diff_state_witness :
  let result :=
    run (getJointStateGoal (goal (setGoal [("j1", 5%Z); ("j2", 7%Z)] joint_stage)) arm)
      start_state in
  result = (Returned true, goal_state).
Proof.
  destruct (@setGoal_joint_map_is_diff_state Z unit _ joint_stage
              [("j1", 5%Z); ("j2", 7%Z)] arm start_state)
    as (_ & _ & _ & Hiff & Hstate & _).
  assert (Forall (fun joint : string * Z =>
                    joint.1 ∈ getJointModelNames arm /\ isVariable joint.1 = true)
            [("j1", 5%Z); ("j2", 7%Z)]) as Hall.
  { repeat constructor; by_computation. }
  apply Hiff in Hall. cbv zeta.
  rewrite (surjective_pairing (run _ _)). rewrite Hall, (Hstate Hall).
  vm_compute. reflexivity.
Defined.

(** Counterexample to C10 as stated: the only key of the map is a joint of
    the group "welded", and the goal does not succeed: "weld" is a fixed
    joint, which is not a variable of the model, and the exception of MoveIt
    leaves the function. *)
Lemma setGoal_joint_map_counterexample :
  let result :=
    run (getJointStateGoal (goal (setGoal [("weld", 3%Z)] joint_stage)) welded) start_state in
  Forall (fun joint : string * Z => joint.1 ∈ getJointModelNames welded) [("weld", 3%Z)] /\
  result = (Raised {| unknown_variable := "weld" |}, start_state) /\
  ~ (result.1 = Returned true <->
     Forall (fun joint : string * Z => joint.1 ∈ getJointModelNames welded) [("weld", 3%Z)]).
Proof.
  cbv zeta.
  assert (Forall (fun joint : string * Z => joint.1 ∈ getJointModelNames welded)
            [("weld", 3%Z)]) as Hall by (repeat constructor; by_computation).
  assert (run (getJointStateGoal (goal (setGoal [("weld", 3%Z)] joint_stage)) welded)
            start_state = (Raised {| unknown_variable := "weld" |}, start_state)) as Hrun
    by (vm_compute; reflexivity).
  split; [exact Hall|]. split; [exact Hrun|].
  rewrite Hrun. intros [_ Hiff]. specialize (Hiff Hall). discriminate Hiff.
Qed.

(** ** Runs for the further properties *)

(** Witness of X1: the group "arm" and no goal. *)
Lemma undefined_goal_fails_witness :
  (run (compute no_goal_stage FORWARD) memory).1 = Returned false /\
  comment (solution (run (compute no_goal_stage FORWARD) memory).2) = "undefined goal" /\
  requests (run (compute no_goal_stage FORWARD) memory).2 = [].
Proof.
  rewrite (@undefined_goal_fails Z unit _ _ no_goal_stage FORWARD memory arm).
  - split; [reflexivity|]. split; vm_compute; reflexivity.
  - vm_compute. reflexivity.
  - reflexivity.
Defined.

(** Witness of X2: an offset without frame id for the group with two tips. *)
Lemma empty_frame_id_needs_unique_tip_witness :
  (run (compute offset_stage_two_tips FORWARD) memory).1 = Returned false /\
  comment (solution (run (compute offset_stage_two_tips FORWARD) memory).2) =
    "frame_id of ik_frame is empty and no unique group tip was found".
Proof.
  rewrite (@empty_frame_id_needs_unique_tip Z unit _ _ offset_stage_two_tips FORWARD memory
             dual offset_without_frame).
  - split; [reflexivity|]. vm_compute. reflexivity.
  - vm_compute. reflexivity.
  - reflexivity.
  - reflexivity.
  - reflexivity.
  - reflexivity.
  - vm_compute. discriminate.
Defined.

(** Witness of X3: an offset in a frame the scene does not know. *)
Lemma unknown_ik_frame_fails_witness :
  (run (compute ghost_stage FORWARD) memory).1 = Returned false /\
  comment (solution (run (compute ghost_stage FORWARD) memory).2) =
    "ik_frame specified in unknown frame 'ghost'" /\
  requests (run (compute ghost_stage FORWARD) memory).2 = [].
Proof.
  rewrite (@unknown_ik_frame_fails Z unit _ _ ghost_stage FORWARD memory arm
             offset_in_ghost "ghost").
  - split; [reflexivity|]. split; vm_compute; reflexivity.
  - vm_compute. reflexivity.
  - reflexivity.
  - reflexivity.
  - reflexivity.
  - left. split; [reflexivity|discriminate].
  - vm_compute. reflexivity.
Defined.

(** Witness of X4: a goal that holds an int. *)
Lemma invalid_goal_type_fails_witness :
  (run (compute odd_goal_stage FORWARD) memory).1 = Returned false /\
  solution (run (compute odd_goal_stage FORWARD) memory).2 =
    {| trajectory := None; isFailure := true; comment := "invalid goal type: int";
       markers := [] |}.
Proof.
  rewrite (@invalid_goal_type_fails Z unit _ _ odd_goal_stage FORWARD memory arm
             "tool" unit_pose "int").
  - split; [reflexivity|]. vm_compute. reflexivity.
  - vm_compute. reflexivity.
  - reflexivity.
  - apply resolves_unique_tip; reflexivity.
Defined.

(** Witness of X5: a pose two units along x in the frame of the table. *)
Lemma pose_goal_target_witness :
  getPoseGoal pose_goal start_scene = Some pose_target /\
  markers (solution (run (compute pose_stage BACKWARD) memory).2) =
    [ {| marker_frame_id := "world"; marker_pose := toMsg pose_target;
         marker_ns := "target frame" |};
      {| marker_frame_id := "world"; marker_pose := toMsg (translation_by 1 0 1);
         marker_ns := "ik frame" |} ].
Proof.
  destruct (@pose_goal_target Z unit _ _ pose_stage BACKWARD memory arm "tool" unit_pose
              pose_msg) as [Htarget Hmarkers].
  - vm_compute. reflexivity.
  - reflexivity.
  - apply resolves_unique_tip; reflexivity.
  - split; [vm_compute; reflexivity|]. rewrite Hmarkers. vm_compute. reflexivity.
Defined.

(** Witness of X6: the planner finds nothing and failures are not stored. *)
Lemma no_trajectory_without_store_failures_witness :
  (run (compute quiet_failing_stage FORWARD) memory).1 = Returned false /\
  solution (run (compute quiet_failing_stage FORWARD) memory).2 = new_solution /\
  length (requests (run (compute quiet_failing_stage FORWARD) memory).2) = 1.
Proof.
  destruct (@no_trajectory_without_store_failures Z unit _ _ quiet_failing_stage FORWARD
              memory false (plan_goal quiet_failing_stage memory).2) as [Hrun _].
  - reflexivity.
  - vm_compute. reflexivity.
  - rewrite Hrun. split; [reflexivity|]. split; vm_compute; reflexivity.
Defined.

(** Witness of X7: a planner that fails with a trajectory of one waypoint. *)
Lemma planner_trajectory_stored_witness :
  exists m',
    run (compute partial_stage BACKWARD) memory = (Returned true, m') /\
    trajectory (solution m') =
      Some {| waypoints := [start_state]; duration_from_previous := [0%Z] |} /\
    isFailure (solution m') = true /\
    robot_state_ (scene m') = Some start_state.
Proof.
  destruct (@planner_trajectory_stored Z unit _ _ partial_stage BACKWARD memory false
              {| waypoints := [start_state]; duration_from_previous := [0%Z] |}
              start_state (plan_goal partial_stage memory).2)
    as (m' & Hrun & Htraj & Hfail & _ & Hscene & _).
  - vm_compute. reflexivity.
  - reflexivity.
  - exists m'. split; [exact Hrun|]. split; [|split; [exact Hfail|exact Hscene]].
    rewrite Htraj. vm_compute. reflexivity.
Defined.

(** Witness of X8: a planner that succeeds with a trajectory without waypoints. *)
Lemma empty_trajectory_faults_witness :
  (run (compute hollow_stage FORWARD) memory).1 = Fault "getLastWayPoint()" /\
  trajectory (solution (run (compute hollow_stage FORWARD) memory).2) = None.
Proof.
  rewrite (@empty_trajectory_faults Z unit _ _ hollow_stage FORWARD memory true
             empty_trajectory (plan_goal hollow_stage memory).2).
  - split; [reflexivity|]. vm_compute. reflexivity.
  - vm_compute. reflexivity.
  - reflexivity.
Defined.



(** Witness of X12: a joint-space goal planned backwards. *)
Lemma returned_scene_continues_trajectory_witness :
  exists t,
    trajectory (solution (run (compute joint_stage BACKWARD) memory).2) = Some t /\
    head (waypoints t) = Some goal_state /\
    robot_state_ (scene (run (compute joint_stage BACKWARD) memory).2) = Some goal_state.
Proof.
  destruct (@returned_scene_continues_trajectory Z unit _ _ joint_stage BACKWARD memory)
    as (t & Htraj & _ & Hscene).
  - vm_compute. reflexivity.
  - exists t. split; [exact Htraj|].
    assert (robot_state_ (scene (run (compute joint_stage BACKWARD) memory).2)
            = Some goal_state) as Hgoal by (vm_compute; reflexivity).
    split; [|exact Hgoal]. rewrite <- Hscene. exact Hgoal.
Defined.

(** Witness of X13: an ik frame in an unknown frame does not matter to a
    joint map. *)
Lemma joint_goal_ignores_ik_frame_witness :
  (run (compute (setIKFrame (translation_by 1 0 0) "ghost" joint_stage) FORWARD) memory).1 =
  Returned true.
Proof.
  rewrite (@joint_goal_ignores_ik_frame Z unit _ _ joint_stage FORWARD memory).
  - vm_compute. reflexivity.
  - reflexivity.
Defined.

(** Witness of X15: a joint map planned forwards. *)
Lemma joint_goal_appends_no_marker_witness :
  markers (solution (run (compute joint_stage FORWARD) memory).2) = [].
Proof.
  rewrite (@joint_goal_appends_no_marker Z unit _ _ joint_stage FORWARD memory).
  - reflexivity.
  - reflexivity.
Defined.

(** Witness of X16: the table is a frame of the scene, not of the robot. *)
Lemma missing_parent_link_faults_witness :
  (run (compute table_stage FORWARD) memory).1 = Fault "parent->getName()" /\
  length (markers (solution (run (compute table_stage FORWARD) memory).2)) = 2 /\
  requests (run (compute table_stage FORWARD) memory).2 = [].
Proof.
  rewrite (@missing_parent_link_faults Z unit _ _ table_stage FORWARD memory arm "table"
             offset_pose point_target).
  - split; [reflexivity|]. split; reflexivity.
  - vm_compute. reflexivity.
  - apply (@resolves_given_frame Z unit _ _ table_stage arm _ offset_in_table).
    + reflexivity.
    + discriminate.
    + vm_compute. reflexivity.
  - right. vm_compute. reflexivity.
  - vm_compute. reflexivity.
Defined.

(** Witness of X17: the tool with an offset of two units along x. *)
Lemma declared_ik_frame_is_used_witness :
  markers (solution (run (compute (setIKFrame (translation_by 2 0 0) "tool" point_stage)
                                  FORWARD) memory).2) =
    [ {| marker_frame_id := "world"; marker_pose := toMsg point_target;
         marker_ns := "target frame" |};
      {| marker_frame_id := "world"; marker_pose := toMsg (translation_by 3 0 1);
         marker_ns := "ik frame" |} ].
Proof.
  rewrite (@declared_ik_frame_is_used Z unit _ _ point_stage FORWARD memory arm
             (translation_by 2 0 0) "tool" "tool" point_target).
  - vm_compute. reflexivity.
  - vm_compute. reflexivity.
  - left. split; [reflexivity|discriminate].
  - vm_compute. reflexivity.
  - right. vm_compute. reflexivity.
Defined.

(** Witness of X18: the second of three keys is not a joint of "arm". *)
Lemma joint_map_exception_leaves_compute_witness :
  run (compute foreign_joint_stage FORWARD) memory =
    (Thrown {| what := "Joint 'j3' is not part of group 'arm'" |},
     {| state_scene := start_scene;
        scene := {| robot_state_ := Some {[ "j1" := 5%Z; "j2" := 2%Z ]} |};
        solution := new_solution;
        requests := [] |}).
Proof.
  rewrite (@joint_map_exception_leaves_compute Z unit _ _ foreign_joint_stage FORWARD memory
             arm [("j1", 5%Z)] [("j4", 1%Z)] "j3" 9%Z).
  - vm_compute. reflexivity.
  - vm_compute. reflexivity.
  - reflexivity.
  - repeat constructor; by_computation.
  - repeat constructor.
  - by_computation.
Defined.

(** Witness of X19: the joint map of "arm". *)
Lemma joint_request_targets_goal_state_witness :
  requests (run (compute joint_stage FORWARD) memory).2 =
    [JointRequest start_scene
       {| getRobotModel := robot; getPlanningFrame := "world"; getCurrentState := goal_state |}
       arm 1%Z tt].
Proof.
  rewrite (@joint_request_targets_goal_state Z unit _ _ joint_stage FORWARD memory arm
             goal_state).
  - reflexivity.
  - vm_compute. reflexivity.
  - vm_compute. reflexivity.
Defined.

(** Witness of X20: a point goal and a planner that finds nothing. *)
Lemma cartesian_fallback_stays_at_start_witness :
  exists m',
    run (compute failing_point_stage BACKWARD) memory = (Returned true, m') /\
    trajectory (solution m') =
      Some {| waypoints := [start_state; start_state]; duration_from_previous := [0; 1]%Z |} /\
    isFailure (solution m') = true.
Proof.
  destruct (@cartesian_fallback_stays_at_start Z unit _ _ failing_point_stage BACKWARD memory
              (plan_goal failing_point_stage memory).2) as (m' & Hrun & Htraj & Hfail & _).
  - reflexivity.
  - reflexivity.
  - vm_compute. reflexivity.
  - exists m'. split; [exact Hrun|]. split; [exact Htraj|exact Hfail].
Defined.

End Runs.
